(** * Verification of [analytics/timeline.py]: the [Timeline] sweep-line counter

    The Python class [Timeline] keeps a [SortedKeyList] of two-element lists
    [[unix_seconds, delta]], keyed by the first component.  Its methods are
    embedded below as functions over a record holding the attributes of
    [self]; methods that mutate [self] return the new attribute record.

    Modelling conventions:
    - Python [int] is [Z] (unbounded): the stored deltas and instants are
      Python integers.
    - A Python [float] (the result of [.timestamp()], a float Unix timestamp,
      the quotient returned by [average]) is a rational [Q]; [int(x)]
      truncates toward zero.
    - An exception is a value [Raise e] of the type [result].
    - The [pandas.DataFrame] returned by [partition] is the list of its rows.
      [pandas.Timestamp(i, unit="s")] keeps nanoseconds in 64 bits and
      raises [OutOfBoundsDatetime] for an [i] it cannot hold, so
      [partition] and what is built on it can raise.
    - The integer columns of that DataFrame are 64-bit: the sum taken by
      [average] wraps.  When a count or an area does not fit in 64 bits the
      library leaves 64-bit integers; [average] is then not modelled and
      is [None] here.
    - The time values of [add] and [count] are those the docstrings name:
      a [datetime] or pandas [Timestamp], a Unix timestamp, and the missing
      values [None] and [pandas.NaT].  A [record] holds the four values
      [count] reads from a row, as [iterrows()] yields them.  The float
      [nan], on which [_ts2int] raises, is a [cell] of the methods that run
      on the store of instances ([Timeline_add], [Timeline_count]). *)

From stdpp Require Import base option list gmap.
From Stdlib Require Import ZArith QArith Lia Sorted.

Open Scope Z_scope.

(** ** Values *)

Inductive exn : Set :=
| TypeError
| ValueError
| OutOfBoundsDatetime. (* raised by [pandas.Timestamp]; a [ValueError] subclass *)

Inductive result (A : Type) : Type :=
| Ok (a : A)
| Raise (e : exn).
Arguments Ok {A} a.
Arguments Raise {A} e.

#[global] Instance result_ret : MRet result := fun A a => Ok a.
#[global] Instance result_bind : MBind result := fun A B k c =>
  match c with Ok a => k a | Raise e => Raise e end.
#[global] Instance result_fmap : FMap result := fun A B f c =>
  match c with Ok a => Ok (f a) | Raise e => Raise e end.

(** What [average] returns: a number, or the [inf] or [nan] that numpy
    gives for a division by zero. *)
Inductive pyfloat : Set :=
| Number (q : Q)
| NotFinite.

(** A time value that [_ts2int] converts. *)
Inductive instant : Set :=
| Datetime (posix : Q)   (* has [.timestamp()], which returns the float [posix] *)
| Unix (seconds : Z)     (* an [int]: no [.timestamp()], [int(ts)] is [ts] *)
| UnixFloat (seconds : Q). (* a [float]: no [.timestamp()], [int(ts)] truncates *)

(** What [add] receives as [time]: a column value of a record. *)
Inductive timevalue : Set :=
| PyNone
| NaT
| At (ts : instant).

(** Python's [int] on a real number: truncation toward zero. *)
Definition py_int (q : Q) : Z := Z.quot (Qnum q) (Zpos (Qden q)).

(** A stored element [[unix_seconds, delta]] of [self.timeline]. *)
Definition entry : Set := (Z * Z)%type.

(** [key=lambda x : x[0]] *)
Definition key (x : entry) : Z := fst x.

Inductive Timestamp : Set := mkTimestamp (unix_seconds : Z).

(** One record appended by [partition]; the columns
    [start, end, delta, count, start_date, end_date]. *)
Record PartitionRow : Set := mkRow {
  row_start : Z;
  row_end : Z;
  row_delta : Z;
  row_count : Z;
  row_start_date : Timestamp;
  row_end_date : Timestamp
}.

(** The values [count] reads from one row of the availability view, as
    [iterrows()] yields them. *)
Record record : Set := mkRecord {
  start_time : timevalue;
  end_time : timevalue;
  start_time_local : timevalue;
  end_time_local : timevalue
}.

Definition DataFrame : Set := list record.

(** The attributes of a [Timeline] instance. *)
Record Timeline : Set := mkTimeline {
  start : instant;
  start_int : Z;
  end_ : instant;
  end_int : Z;
  local : bool;
  debug : bool;
  timeline : list entry
}.

Definition set_timeline (self : Timeline) (l : list entry) : Timeline :=
  {| start := start self; start_int := start_int self;
     end_ := end_ self; end_int := end_int self;
     local := local self; debug := debug self;
     timeline := l |}.

(** ** [SortedKeyList] *)

(** Indices, ascending, of the values whose key lies in
    [[min_key, max_key]]: the values [irange_key] iterates over, by
    position. *)
Fixpoint irange_key_from (i : nat) (l : list entry) (min_key max_key : Z)
  : list nat :=
  match l with
  | [] => []
  | x :: r =>
      if (min_key <=? key x) && (key x <=? max_key)
      then i :: irange_key_from (S i) r min_key max_key
      else irange_key_from (S i) r min_key max_key
  end.

Definition irange_key (l : list entry) (min_key max_key : Z) : list nat :=
  irange_key_from 0 l min_key max_key.

(** Insertion point to the right of the values whose key is at most [k]. *)
Fixpoint bisect_key_right (l : list entry) (k : Z) : nat :=
  match l with
  | [] => O
  | x :: r => if key x <=? k then S (bisect_key_right r k) else O
  end.

(** [SortedKeyList.add(value)] *)
Definition sorted_add (l : list entry) (value : entry) : list entry :=
  let i := bisect_key_right l (key value) in
  take i l ++ value :: drop i l.

(** ** Methods of [Timeline] *)

Definition _reset (self : Timeline) : Timeline :=
  set_timeline self [].

(** The seconds [pandas.Timestamp(i, unit="s")] accepts: [i * 10^9]
    nanoseconds must fit in 64 bits. *)
Definition Timestamp_min : Z := -9223372036.
Definition Timestamp_max : Z := 9223372036.

Definition in_Timestamp_range (i : Z) : bool :=
  (Timestamp_min <=? i) && (i <=? Timestamp_max).

Definition _int2ts (i : Z) : result Timestamp :=
  if in_Timestamp_range i then Ok (mkTimestamp i)
  else Raise OutOfBoundsDatetime.

Definition _ts2int (ts : instant) : Z :=
  match ts with
  | Datetime posix => py_int posix
  | Unix seconds => seconds
  | UnixFloat seconds => py_int seconds
  end.

(** [start] or [end] is [None] in Python exactly when it is [None] here. *)
Definition __init__ (start end_ : option instant) (local debug : bool)
  : result Timeline :=
  match start, end_ with
  | Some s, Some e =>
      Ok (_reset {| start := s; start_int := _ts2int s;
                    end_ := e; end_int := _ts2int e;
                    local := local; debug := debug;
                    timeline := [] |})
  | _, _ => Raise TypeError
  end.

(** The value of [t] in [add] (lines 93-96). *)
Definition add_instant (self : Timeline) (time : timevalue) : Z :=
  match time with
  | PyNone | NaT => end_int self
  | At ts => Z.min (Z.max (_ts2int ts) (start_int self)) (end_int self)
  end.

(** The loop of [add] over [irange_key(t, t)] returns after its first
    iteration, having incremented that value in place; an empty range falls
    through to [self.timeline.add([t, delta])].  This is [add] on a time
    value that converts; on a [nan] it raises, see [Timeline_add]. *)
Definition add (self : Timeline) (time : timevalue) (delta : Z) : Timeline :=
  let t := add_instant self time in
  match irange_key (timeline self) t t with
  | i :: _ =>
      match timeline self !! i with
      | Some val =>
          set_timeline self (<[i := (fst val, snd val + delta)]> (timeline self))
      | None => self
      end
  | [] => set_timeline self (sorted_add (timeline self) (t, delta))
  end.

(** The attributes of [self] after [count(data)] when every value read
    converts; the value returned and the raise on a [nan] are in
    [Timeline_count] below. *)
Definition count (self : Timeline) (data : DataFrame) : Timeline :=
  fold_left
    (fun self row =>
       if local self
       then add (add self (start_time_local row) 1) (end_time_local row) (-1)
       else add (add self (start_time row) 1) (end_time row) (-1))
    data (_reset self).

(** One iteration of the loop of [partition], at index [i]; a raise of
    [_int2ts] ends the loop. *)
Definition partition_step (tl : list entry)
  (st : result (Z * list PartitionRow)) (i : nat)
  : result (Z * list PartitionRow) :=
  st ← st;
  match tl !! i, tl !! S i with
  | Some a, Some b =>
      let count := fst st + snd a in
      start_date ← _int2ts (fst a);
      end_date ← _int2ts (fst b);
      Ok (count,
          snd st ++ [ {| row_start := fst a;
                         row_end := fst b;
                         row_delta := fst b - fst a;
                         row_count := count;
                         row_start_date := start_date;
                         row_end_date := end_date |} ])
  | _, _ => Ok st (* an index outside the list: not reached for [i < len - 1] *)
  end.

Definition partition (self : Timeline) : result (list PartitionRow) :=
  snd <$> fold_left (partition_step (timeline self))
            (seq 0 (length (timeline self) - 1)) (Ok (0, [])).

Definition delta_x (self : Timeline) : result (list Z) :=
  partition ← partition self;
  Ok (map row_delta partition).

(** The builtin [max] over an iterable: [ValueError] when it is empty. *)
Definition py_max (l : list Z) : result Z :=
  match l with
  | [] => Raise ValueError
  | x :: r => Ok (fold_left Z.max r x)
  end.

Definition norm (self : Timeline) : result Z :=
  partition ← partition self;
  deltas ← delta_x self;
  py_max deltas.

Definition dimension (self : Timeline) : result nat :=
  partition ← partition self;
  Ok (length partition).

(** A signed 64-bit integer, and the value a 64-bit sum wraps to. *)
Definition fits64 (z : Z) : bool := (- 2 ^ 63 <=? z) && (z <? 2 ^ 63).

Definition wrap64 (z : Z) : Z := (z + 2 ^ 63) mod 2 ^ 64 - 2 ^ 63.

(** [None]: a count or an area does not fit in 64 bits (see the head of the
    file).  Otherwise the columns are 64-bit, [areas.agg("sum")] is a
    64-bit sum, and [sigma / delta] is a numpy division, which returns
    [inf] or [nan] for a zero [delta]. *)
Definition average (self : Timeline) : option (result pyfloat) :=
  if (length (timeline self) <=? 1)%nat then Some (Ok (Number 0))
  else
    match partition self with
    | Raise e => Some (Raise e)
    | Ok partition =>
        if forallb (fun i => fits64 (row_count i)
                             && fits64 (row_count i * row_delta i)) partition
        then
          let areas := map (fun i => row_count i * row_delta i) partition in
          let sigma := wrap64 (fold_left Z.add areas 0) in
          let delta := _ts2int (end_ self) - _ts2int (start self) in
          Some (Ok (if delta =? 0 then NotFinite
                    else Number (inject_Z sigma / inject_Z delta)))
        else None
    end.

(** ** Instances as objects

    A [Timeline] instance is a reference into a store of attribute records.
    Constructing allocates a fresh reference unless [__init__] raises.  A
    method call runs on the store: it returns a value or raises, and leaves
    the store as mutated up to that point ([None]: [self] is not an
    instance of the store). *)

Definition ref : Set := nat.

Definition new_Timeline (start end_ : option instant) (local debug : bool)
  (h : gmap nat Timeline) : result ref * gmap nat Timeline :=
  match __init__ start end_ local debug with
  | Ok obj => let r := fresh (dom h) in (Ok r, <[r := obj]> h)
  | Raise e => (Raise e, h)
  end.

(** A cell of a row as [iterrows()] yields it: a time value, or the float
    [nan] that marks a missing value in a numeric column. *)
Inductive cell : Set :=
| Cell (time : timevalue)
| NaN.

(** A row of [data.iterrows()]. *)
Record Series : Set := mkSeries {
  start_time_cell : cell;
  end_time_cell : cell;
  start_time_local_cell : cell;
  end_time_local_cell : cell
}.

Definition call (A : Type) : Type :=
  gmap nat Timeline -> option (result A * gmap nat Timeline).

#[global] Instance call_ret : MRet call := fun A a h => Some (Ok a, h).
#[global] Instance call_bind : MBind call := fun A B k c h =>
  match c h with
  | Some (Ok a, h') => k a h'
  | Some (Raise e, h') => Some (Raise e, h')
  | None => None
  end.

(** A computation that does not touch the store. *)
Definition call_pure {A : Type} (r : result A) : call A :=
  fun h => Some (r, h).

Definition call_raise {A : Type} (e : exn) : call A :=
  call_pure (Raise e).

(** Reading the attributes of [self], and mutating them. *)
Definition attributes (self : ref) : call Timeline :=
  fun h => match h !! self with Some obj => Some (Ok obj, h) | None => None end.

Definition mutate (self : ref) (f : Timeline -> Timeline) : call unit :=
  fun h => match h !! self with
           | Some obj => Some (Ok tt, <[self := f obj]> h)
           | None => None
           end.

Definition Timeline_reset (self : ref) : call unit :=
  mutate self _reset.

(** [add] on a cell: [nan] is neither [None] nor [NaT], it has no
    [.timestamp()], and [int(nan)] raises [ValueError] in [_ts2int]
    before anything is stored. *)
Definition Timeline_add (self : ref) (time : cell) (delta : Z) : call unit :=
  match time with
  | NaN => call_raise ValueError
  | Cell time => mutate self (fun obj => add obj time delta)
  end.

(** The loop of [count] (lines 75-81). *)
Fixpoint Timeline_count_rows (self : ref) (rows : list Series) : call unit :=
  match rows with
  | [] => mret tt
  | row :: rows =>
      obj ← attributes self;
      (if local obj
       then Timeline_add self (start_time_local_cell row) 1 ≫= fun _ =>
            Timeline_add self (end_time_local_cell row) (-1)
       else Timeline_add self (start_time_cell row) 1 ≫= fun _ =>
            Timeline_add self (end_time_cell row) (-1)) ≫= fun _ =>
      Timeline_count_rows self rows
  end.

Definition Timeline_count (self : ref) (data : list Series) : call ref :=
  Timeline_reset self ≫= fun _ =>
  Timeline_count_rows self data ≫= fun _ =>
  mret self.

Definition Timeline_partition (self : ref) : call (list PartitionRow) :=
  obj ← attributes self;
  call_pure (partition obj).

(** The cells [count] reads from a row, by [self.local]. *)
Definition start_cell (obj : Timeline) (row : Series) : cell :=
  if local obj then start_time_local_cell row else start_time_cell row.

Definition end_cell (obj : Timeline) (row : Series) : cell :=
  if local obj then end_time_local_cell row else end_time_cell row.

(** The row whose four cells hold the values of a record. *)
Definition cells (row : record) : Series :=
  {| start_time_cell := Cell (start_time row);
     end_time_cell := Cell (end_time row);
     start_time_local_cell := Cell (start_time_local row);
     end_time_local_cell := Cell (end_time_local row) |}.

(** ** The states a program can reach *)

Inductive reachable : Timeline -> Prop :=
| reach_init s e l d self :
    __init__ s e l d = Ok self -> reachable self
| reach_reset self :
    reachable self -> reachable (_reset self)
| reach_add self time delta :
    reachable self -> reachable (add self time delta)
| reach_count self data :
    reachable self -> reachable (count self data).

(** The value stored under instant [k], if any. *)
Fixpoint value_at (k : Z) (l : list entry) : option Z :=
  match l with
  | [] => None
  | x :: r => if key x =? k then Some (snd x) else value_at k r
  end.

Definition row4 (r : PartitionRow) : Z * Z * Z * Z :=
  (row_start r, row_end r, row_delta r, row_count r).

(** ** Specification-side notions *)

(** The Riemann sum of the specification: the sum over the rows of
    [count * width]. *)
Definition riemann_sum (rows : list PartitionRow) : Z :=
  foldr (fun r acc => row_count r * row_delta r + acc) 0 rows.

Definition instants (self : Timeline) : list Z := map key (timeline self).

Definition distinct_instant_count (self : Timeline) : nat :=
  length (remove_dups (instants self)).

(** An instant [pandas.Timestamp] can hold. *)
Definition representable (i : Z) : Prop := Timestamp_min <= i <= Timestamp_max.

(** A value a signed 64-bit integer can hold. *)
Definition in_int64 (z : Z) : Prop := - 2 ^ 63 <= z < 2 ^ 63.

(** A row whose count and area are 64-bit. *)
Definition narrow (r : PartitionRow) : Prop :=
  in_int64 (row_count r) /\ in_int64 (row_count r * row_delta r).

(** The entries stored under instant [x]. *)
Definition entries_at (x : Z) (self : Timeline) : list entry :=
  filter (fun v => key v = x) (timeline self).

(** [add(time, delta)] on [self] files [delta] under instant [x]: afterwards
    an entry is stored under [x], its value is the previous one (0 when
    there was none) plus [delta], and every other instant is untouched. *)
Definition stores_at (self : Timeline) (time : timevalue) (delta x : Z) : Prop :=
  let after := timeline (add self time delta) in
  value_at x after = Some (default 0 (value_at x (timeline self)) + delta)
  /\ forall k, k <> x -> value_at k after = value_at k (timeline self).

(** Consecutive rows share their boundary. *)
Definition contiguous (rows : list PartitionRow) : Prop :=
  forall (i : nat) (r1 r2 : PartitionRow),
    rows !! i = Some r1 -> rows !! S i = Some r2 -> row_end r1 = row_start r2.

(** ** Proof-side characterisations *)

Definition key_lt (x y : entry) : Prop := key x < key y.

(** Update-or-insert on a list in ascending key order. *)
Fixpoint upsert (t d : Z) (l : list entry) : list entry :=
  match l with
  | [] => [(t, d)]
  | x :: r =>
      if key x =? t then (fst x, snd x + d) :: r
      else if key x <? t then x :: upsert t d r
      else (t, d) :: x :: r
  end.

(** The timeline after [add], as a function of the timeline before. *)
Definition add_list (t d : Z) (l : list entry) : list entry :=
  match irange_key l t t with
  | i :: _ =>
      match l !! i with
      | Some val => <[i := (fst val, snd val + d)]> l
      | None => l
      end
  | [] => sorted_add l (t, d)
  end.

(** The instants [partition] renders as labels: every stored instant once
    two are stored, none before. *)
Definition rendered (l : list entry) : list Z :=
  match l with
  | [] | [_] => []
  | _ :: _ :: _ => map key l
  end.

(** The rows of the partition by recursion on the timeline, when no label
    raises. *)
Fixpoint rows_from (count : Z) (l : list entry) : list PartitionRow :=
  match l with
  | a :: (b :: _) as r =>
      {| row_start := fst a; row_end := fst b; row_delta := fst b - fst a;
         row_count := count + snd a;
         row_start_date := mkTimestamp (fst a);
         row_end_date := mkTimestamp (fst b) |} :: rows_from (count + snd a) r
  | _ => []
  end.

(** What every reachable instance satisfies: the cached bounds are those of
    the window, the entries are in strictly ascending key order, and every
    key is a clamped instant. *)
Record wf (self : Timeline) : Prop := mkWf {
  wf_start : start_int self = _ts2int (start self);
  wf_end : end_int self = _ts2int (end_ self);
  wf_sorted : StronglySorted key_lt (timeline self);
  wf_keys : Forall (fun x => key x <= end_int self
                             /\ (key x = end_int self \/ start_int self <= key x))
              (timeline self)
}.

Definition interval (a b : Z) : record :=
  {| start_time := At (Unix a); end_time := At (Unix b);
     start_time_local := At (Unix a); end_time_local := At (Unix b) |}.

(** A run of [add] calls, in order. *)
Definition adds (self : Timeline) (ops : list (timevalue * Z)) : Timeline :=
  fold_left (fun self op => add self (fst op) (snd op)) ops self.

(** The instances used as concrete inputs. *)
Definition bare (s e : Z) : Timeline :=
  {| start := Unix s; start_int := s; end_ := Unix e; end_int := e;
     local := false; debug := false; timeline := [] |}.

Definition two_intervals : DataFrame := [interval 0 5; interval 2 7].

(** An instance whose window reaches past the range of
    [pandas.Timestamp], with both bounds stored. *)
Definition far : Timeline :=
  adds (bare 0 (10 ^ 13)) [(At (Unix 0), 1); (NaT, -1)].

(** An instance with four rows of width 1 and count [2^62]: each area is
    64-bit, their sum is [2^64]. *)
Definition heavy : Timeline :=
  adds (bare 0 10)
    [(At (Unix 0), 2 ^ 62); (At (Unix 1), 0); (At (Unix 2), 0);
     (At (Unix 3), 0); (At (Unix 4), 0)].

(** ** Notions used to state further properties *)

(** The columns [count] reads from a row, by [self.local]. *)
Definition start_of (self : Timeline) (row : record) : timevalue :=
  if local self then start_time_local row else start_time row.

Definition end_of (self : Timeline) (row : record) : timevalue :=
  if local self then end_time_local row else end_time row.

(** The two [add] calls [count] makes for a row. *)
Definition row_ops (self : Timeline) (row : record) : list (timevalue * Z) :=
  [(start_of self row, 1); (end_of self row, -1)].

Definition sumZ (l : list Z) : Z := foldr Z.add 0 l.

(** The sum of all stored deltas. *)
Definition sum_values (l : list entry) : Z := sumZ (map snd l).

(** The calls of a run that are filed under instant [k]. *)
Definition filed (self : Timeline) (ops : list (timevalue * Z)) (k : Z)
  : list (timevalue * Z) :=
  filter (fun op => add_instant self (fst op) = k) ops.

(** The records present at instant [k]: clamped start at or before [k],
    clamped end after [k]. *)
Definition present (self : Timeline) (data : DataFrame) (k : Z) : list record :=
  filter (fun row => add_instant self (start_of self row) <= k
                     /\ k < add_instant self (end_of self row)) data.

(** The records that do not end before they start, once clamped. *)
Definition ordered (self : Timeline) (row : record) : Prop :=
  add_instant self (start_of self row) <= add_instant self (end_of self row).

(** The timeline after a run of [add] calls, on a list in key order. *)
Definition upsert_all (self : Timeline) (ops : list (timevalue * Z))
  (l : list entry) : list entry :=
  fold_left (fun l op => upsert (add_instant self (fst op)) (snd op) l) ops l.

(** The sum of the deltas stored at or before instant [k]. *)
Definition cumulative (k : Z) (l : list entry) : Z :=
  sumZ (map snd (filter (fun x => key x <= k) l)).

(** ** The accumulator: [add] *)

Lemma irange_key_from_S (l : list entry) (n : nat) (lo hi : Z) :
  irange_key_from (S n) l lo hi = map S (irange_key_from n l lo hi).
Proof.
  revert n. induction l as [|x r IH]; intros n; simpl; [reflexivity|].
  destruct ((lo <=? key x) && (key x <=? hi)); simpl; rewrite IH; reflexivity.
Qed.

Lemma irange_key_cons (x : entry) (r : list entry) (lo hi : Z) :
  irange_key (x :: r) lo hi =
  if (lo <=? key x) && (key x <=? hi) then O :: map S (irange_key r lo hi)
  else map S (irange_key r lo hi).
Proof.
  unfold irange_key. simpl. rewrite irange_key_from_S. reflexivity.
Qed.

Lemma irange_key_point (x : entry) (t : Z) :
  (t <=? key x) && (key x <=? t) = (key x =? t).
Proof.
  destruct (Z.eqb_spec (key x) t) as [->|Hne].
  - rewrite Z.leb_refl. reflexivity.
  - destruct (Z.leb_spec t (key x)), (Z.leb_spec (key x) t); simpl; try reflexivity; lia.
Qed.

Lemma irange_key_above (t : Z) (l : list entry) :
  Forall (fun y => t < key y) l -> irange_key l t t = [].
Proof.
  induction 1 as [|y r Hy _ IH]; [reflexivity|].
  rewrite irange_key_cons, irange_key_point, IH.
  destruct (Z.eqb_spec (key y) t); [lia | reflexivity].
Qed.

Lemma add_list_cons (t d : Z) (x : entry) (r : list entry) :
  add_list t d (x :: r) =
  if key x =? t then (fst x, snd x + d) :: r
  else match irange_key r t t with
       | [] => if key x <? t then x :: add_list t d r else (t, d) :: x :: r
       | _ :: _ => x :: add_list t d r
       end.
Proof.
  unfold add_list at 1. rewrite irange_key_cons, irange_key_point.
  destruct (Z.eqb_spec (key x) t) as [Heq|Hne]; [reflexivity|].
  unfold add_list. destruct (irange_key r t t) as [|j js]; simpl.
  - unfold sorted_add. simpl.
    destruct (Z.leb_spec (key x) t), (Z.ltb_spec (key x) t); try lia; reflexivity.
  - destruct (r !! j); reflexivity.
Qed.

Lemma add_list_upsert (t d : Z) (l : list entry) :
  StronglySorted key_lt l -> add_list t d l = upsert t d l.
Proof.
  induction 1 as [|x r Hr IH Hx]; [reflexivity|].
  rewrite add_list_cons. simpl.
  destruct (Z.eqb_spec (key x) t) as [Heq|Hne]; [reflexivity|].
  destruct (Z.ltb_spec (key x) t) as [Hlt|Hge].
  - rewrite IH. destruct (irange_key r t t); reflexivity.
  - rewrite irange_key_above; [reflexivity|].
    eapply Forall_impl; [exact Hx|]. unfold key_lt. intros y Hy. simpl in Hy. lia.
Qed.

Lemma add_timeline (self : Timeline) (time : timevalue) (delta : Z) :
  timeline (add self time delta) =
  add_list (add_instant self time) delta (timeline self).
Proof.
  unfold add, add_list.
  destruct (irange_key _ _ _) as [|i js]; [reflexivity|].
  destruct (timeline self !! i); reflexivity.
Qed.

Lemma upsert_keys (P : Z -> Prop) (t d : Z) (l : list entry) :
  P t -> Forall (fun x => P (key x)) l -> Forall (fun x => P (key x)) (upsert t d l).
Proof.
  intros Ht. induction 1 as [|x r Hx Hr IH]; simpl.
  - constructor; [exact Ht | constructor].
  - destruct (key x =? t); [|destruct (key x <? t)].
    + constructor; [exact Hx | exact Hr].
    + constructor; [exact Hx | exact IH].
    + constructor; [exact Ht|]. constructor; [exact Hx | exact Hr].
Qed.

Lemma upsert_sorted (t d : Z) (l : list entry) :
  StronglySorted key_lt l -> StronglySorted key_lt (upsert t d l).
Proof.
  induction 1 as [|x r Hr IH Hx]; simpl.
  - constructor; [constructor | constructor].
  - destruct (Z.eqb_spec (key x) t) as [Heq|Hne]; [|destruct (Z.ltb_spec (key x) t) as [Hlt|Hge]].
    + constructor; [exact Hr | exact Hx].
    + constructor; [exact IH|].
      apply (upsert_keys (fun k => key x < k)); [exact Hlt | exact Hx].
    + constructor; [constructor; [exact Hr | exact Hx]|].
      constructor; [unfold key_lt; simpl; lia|].
      eapply Forall_impl; [exact Hx|]. unfold key_lt. simpl. intros y Hy. lia.
Qed.

Lemma value_at_above (k : Z) (l : list entry) :
  Forall (fun y => k < key y) l -> value_at k l = None.
Proof.
  induction 1 as [|y r Hy _ IH]; simpl; [reflexivity|].
  destruct (Z.eqb_spec (key y) k); [lia | exact IH].
Qed.

Lemma upsert_value_at (t d : Z) (l : list entry) :
  StronglySorted key_lt l ->
  value_at t (upsert t d l) = Some (default 0 (value_at t l) + d).
Proof.
  induction 1 as [|x r Hr IH Hx]; simpl.
  - rewrite Z.eqb_refl. reflexivity.
  - destruct (Z.eqb_spec (key x) t) as [Heq|Hne]; [|destruct (Z.ltb_spec (key x) t) as [Hlt|Hge]]; simpl.
    + unfold key in *. simpl. destruct (Z.eqb_spec (fst x) t); [reflexivity | contradiction].
    + destruct (Z.eqb_spec (key x) t); [contradiction | exact IH].
    + rewrite Z.eqb_refl. rewrite value_at_above; [reflexivity|].
      eapply Forall_impl; [exact Hx|]. unfold key_lt. simpl. intros y Hy. lia.
Qed.

Lemma upsert_value_at_ne (t d k : Z) (l : list entry) :
  k <> t -> value_at k (upsert t d l) = value_at k l.
Proof.
  intros Hk. induction l as [|x r IH]; simpl.
  - destruct (Z.eqb_spec t k); [congruence | reflexivity].
  - destruct (Z.eqb_spec (key x) t) as [Heq|Hne]; [|destruct (Z.ltb_spec (key x) t) as [Hlt|Hge]]; simpl.
    + unfold key in *. simpl. destruct (Z.eqb_spec (fst x) k); [congruence | reflexivity].
    + rewrite IH. reflexivity.
    + destruct (Z.eqb_spec t k); [congruence | reflexivity].
Qed.

Lemma filter_key_above (k : Z) (l : list entry) :
  Forall (fun y => k < key y) l -> filter (fun v : entry => key v = k) l = [].
Proof.
  induction 1 as [|y r Hy _ IH]; [reflexivity|].
  rewrite filter_cons. destruct (decide (key y = k)); [lia | exact IH].
Qed.

(** In ascending key order the entries under one instant are the one that
    [value_at] finds. *)
Lemma filter_key_value_at (k : Z) (l : list entry) :
  StronglySorted key_lt l ->
  filter (fun v : entry => key v = k) l =
  match value_at k l with Some v => [(k, v)] | None => [] end.
Proof.
  induction 1 as [|x r Hr IH Hx]; [reflexivity|].
  rewrite filter_cons. simpl.
  destruct (decide (key x = k)) as [Heq|Hne].
  - rewrite (proj2 (Z.eqb_eq _ _) Heq). rewrite filter_key_above.
    + destruct x as [a b]. unfold key in Heq. simpl in *. subst. reflexivity.
    + eapply Forall_impl; [exact Hx|]. unfold key_lt. simpl. intros y Hy. lia.
  - destruct (Z.eqb_spec (key x) k); [contradiction | exact IH].
Qed.

Lemma sorted_keys_NoDup (l : list entry) :
  StronglySorted key_lt l -> NoDup (map key l).
Proof.
  induction 1 as [|x r Hr IH Hx]; simpl; [constructor|].
  constructor; [|exact IH].
  intros Hin. apply list_elem_of_fmap in Hin. destruct Hin as [y [Hy Hin]].
  rewrite Forall_forall in Hx. specialize (Hx y Hin). unfold key_lt in Hx. lia.
Qed.

Lemma sorted_keys_ascending (l : list entry) :
  StronglySorted key_lt l -> StronglySorted Z.lt (map key l).
Proof.
  induction 1 as [|x r Hr IH Hx]; simpl; constructor; [exact IH|].
  apply Forall_fmap. exact Hx.
Qed.

(** ** Reachable instances are well formed *)

Lemma add_instant_bounds (self : Timeline) (time : timevalue) :
  add_instant self time <= end_int self
  /\ (add_instant self time = end_int self \/ start_int self <= add_instant self time).
Proof.
  destruct time as [| |ts]; simpl; lia.
Qed.

Lemma add_fields (self : Timeline) (time : timevalue) (delta : Z) :
  add self time delta = set_timeline self (timeline (add self time delta)).
Proof.
  unfold add. destruct (irange_key _ _ _) as [|i js]; [reflexivity|].
  destruct (timeline self !! i); [reflexivity|]. destruct self; reflexivity.
Qed.

Lemma wf_init (s e : option instant) (l d : bool) (self : Timeline) :
  __init__ s e l d = Ok self -> wf self.
Proof.
  destruct s as [s|], e as [e|]; simpl; intros H; try discriminate.
  injection H as <-. split; simpl; try reflexivity; constructor.
Qed.

Lemma wf_reset (self : Timeline) : wf self -> wf (_reset self).
Proof.
  intros [H1 H2 _ _]. split; simpl; try assumption; constructor.
Qed.

Lemma wf_add (self : Timeline) (time : timevalue) (delta : Z) :
  wf self -> wf (add self time delta).
Proof.
  intros [H1 H2 H3 H4]. rewrite add_fields, add_timeline, add_list_upsert by exact H3.
  split; simpl; try assumption.
  - apply upsert_sorted. exact H3.
  - apply (upsert_keys (fun k => k <= end_int self /\ (k = end_int self \/ start_int self <= k)));
      [apply add_instant_bounds | exact H4].
Qed.

Lemma wf_fold_rows (data : DataFrame) (self : Timeline) :
  wf self ->
  wf (fold_left
        (fun self row =>
           if local self
           then add (add self (start_time_local row) 1) (end_time_local row) (-1)
           else add (add self (start_time row) 1) (end_time row) (-1))
        data self).
Proof.
  revert self. induction data as [|row data IH]; intros self Hwf; simpl; [exact Hwf|].
  apply IH. destruct (local self); apply wf_add, wf_add, Hwf.
Qed.

Lemma wf_count (self : Timeline) (data : DataFrame) :
  wf self -> wf (count self data).
Proof.
  intros Hwf. unfold count. apply wf_fold_rows, wf_reset, Hwf.
Qed.

Lemma reachable_wf (self : Timeline) : reachable self -> wf self.
Proof.
  induction 1 as [s e l d self H|self _ IH|self time delta _ IH|self data _ IH].
  - eapply wf_init; exact H.
  - apply wf_reset, IH.
  - apply wf_add, IH.
  - apply wf_count, IH.
Qed.

(** ** The partition builder *)

Lemma in_Timestamp_range_spec (i : Z) :
  in_Timestamp_range i = true <-> representable i.
Proof.
  unfold in_Timestamp_range, representable.
  rewrite andb_true_iff, !Z.leb_le. reflexivity.
Qed.

Lemma forallb_representable (l : list Z) :
  forallb in_Timestamp_range l = true <-> Forall representable l.
Proof.
  induction l as [|x l IH]; simpl.
  - split; [constructor | reflexivity].
  - rewrite andb_true_iff, IH, in_Timestamp_range_spec, Forall_cons. reflexivity.
Qed.

Lemma fold_partition_raise (tl : list entry) (e : exn) (indices : list nat) :
  fold_left (partition_step tl) indices (Raise e) = Raise e.
Proof. induction indices as [|i indices IH]; [reflexivity | exact IH]. Qed.

Lemma rendered_cons2 (a b : entry) (l : list entry) :
  forallb in_Timestamp_range (rendered (a :: b :: l))
  = in_Timestamp_range (fst a) && in_Timestamp_range (fst b)
    && forallb in_Timestamp_range (rendered (b :: l)).
Proof.
  destruct l as [|c l]; cbn [rendered map forallb]; unfold key.
  - rewrite !andb_true_r. reflexivity.
  - destruct (in_Timestamp_range (fst a)), (in_Timestamp_range (fst b));
      reflexivity.
Qed.

Lemma partition_loop (pre l : list entry) (c : Z) (acc : list PartitionRow) :
  snd <$> fold_left (partition_step (pre ++ l))
            (seq (length pre) (length l - 1)) (Ok (c, acc))
  = if forallb in_Timestamp_range (rendered l)
    then Ok (acc ++ rows_from c l)
    else Raise OutOfBoundsDatetime.
Proof.
  revert pre c acc. induction l as [|a l IH]; intros pre c acc.
  - simpl. rewrite app_nil_r. reflexivity.
  - destruct l as [|b l].
    + simpl. rewrite app_nil_r. reflexivity.
    + replace (length (a :: b :: l) - 1)%nat with (S (length (b :: l) - 1))
        by (simpl; lia).
      rewrite <- cons_seq. cbn [fold_left]. rewrite rendered_cons2.
      unfold partition_step at 2. cbn [mbind result_bind].
      rewrite (lookup_app_r pre) by lia.
      rewrite (lookup_app_r pre) by lia.
      replace (length pre - length pre)%nat with O by lia.
      replace (S (length pre) - length pre)%nat with 1%nat by lia.
      cbn [lookup list_lookup fst snd]. unfold _int2ts.
      destruct (in_Timestamp_range (fst a)); cbn [andb mbind result_bind];
        [|rewrite fold_partition_raise; reflexivity].
      destruct (in_Timestamp_range (fst b)); cbn [andb mbind result_bind];
        [|rewrite fold_partition_raise; reflexivity].
      specialize (IH (pre ++ [a]) (c + snd a)).
      rewrite <- app_assoc in IH. cbn [app] in IH.
      rewrite length_app in IH. cbn [length] in IH.
      replace (length pre + 1)%nat with (S (length pre)) in IH by lia.
      cbn [length]. rewrite IH.
      destruct (forallb in_Timestamp_range (rendered (b :: l))); [|reflexivity].
      rewrite <- app_assoc. reflexivity.
Qed.

Lemma partition_eq (self : Timeline) :
  partition self
  = if forallb in_Timestamp_range (rendered (timeline self))
    then Ok (rows_from 0 (timeline self))
    else Raise OutOfBoundsDatetime.
Proof.
  unfold partition.
  exact (partition_loop [] (timeline self) 0 []).
Qed.

Lemma partition_Ok (self : Timeline) (rows : list PartitionRow) :
  partition self = Ok rows -> rows = rows_from 0 (timeline self).
Proof.
  rewrite partition_eq. destruct (forallb _ _); congruence.
Qed.

Lemma rendered_instants (self : Timeline) :
  Forall representable (instants self) ->
  forallb in_Timestamp_range (rendered (timeline self)) = true.
Proof.
  intros H. apply forallb_representable. unfold instants in H.
  destruct (timeline self) as [|a [|b l]]; [constructor | constructor | exact H].
Qed.

Lemma partition_representable (self : Timeline) :
  Forall representable (instants self) ->
  partition self = Ok (rows_from 0 (timeline self)).
Proof.
  intros H. rewrite partition_eq, rendered_instants by exact H. reflexivity.
Qed.

Lemma partition_short (self : Timeline) :
  (length (timeline self) <= 1)%nat -> partition self = Ok [].
Proof.
  intros H. rewrite partition_eq.
  destruct (timeline self) as [|a [|b l]]; simpl in *; try reflexivity; lia.
Qed.

Lemma partition_out_of_range (self : Timeline) :
  (1 < length (timeline self))%nat ->
  ~ Forall representable (instants self) ->
  partition self = Raise OutOfBoundsDatetime.
Proof.
  intros Hlen Hnot. rewrite partition_eq.
  destruct (forallb in_Timestamp_range (rendered (timeline self))) eqn:E;
    [|reflexivity].
  exfalso. apply Hnot. apply forallb_representable in E. unfold instants.
  destruct (timeline self) as [|a [|b l]]; simpl in Hlen; try lia. exact E.
Qed.

Lemma partition_Raise (self : Timeline) (e : exn) :
  partition self = Raise e ->
  e = OutOfBoundsDatetime /\ (1 < length (timeline self))%nat
  /\ ~ Forall representable (instants self).
Proof.
  intros H.
  destruct (le_lt_dec (length (timeline self)) 1) as [Hlen|Hlen].
  { rewrite partition_short in H by exact Hlen. discriminate H. }
  assert (Hnot : ~ Forall representable (instants self)).
  { intros Hall. rewrite partition_representable in H by exact Hall.
    discriminate H. }
  rewrite partition_out_of_range in H by assumption.
  split; [congruence|]. split; assumption.
Qed.

Lemma rows_from_length (c : Z) (l : list entry) :
  length (rows_from c l) = (length l - 1)%nat.
Proof.
  revert c. induction l as [|a l IH]; intros c; [reflexivity|].
  destruct l as [|b l]; [reflexivity|].
  change (rows_from c (a :: b :: l)) with
    ({| row_start := fst a; row_end := fst b; row_delta := fst b - fst a;
        row_count := c + snd a;
        row_start_date := mkTimestamp (fst a);
        row_end_date := mkTimestamp (fst b) |} :: rows_from (c + snd a) (b :: l)).
  cbn [length]. rewrite IH. cbn [length]. lia.
Qed.

Lemma rows_from_head (c : Z) (l : list entry) (r : PartitionRow) :
  rows_from c l !! O = Some r -> exists a, l !! O = Some a /\ row_start r = fst a.
Proof.
  destruct l as [|a [|b l]]; simpl; try discriminate.
  intros H. injection H as <-. exists a. split; reflexivity.
Qed.

Lemma rows_from_contiguous (c : Z) (l : list entry) :
  contiguous (rows_from c l).
Proof.
  revert c. induction l as [|a l IH]; intros c i r1 r2; [discriminate|].
  destruct l as [|b l]; [discriminate|].
  change (rows_from c (a :: b :: l)) with
    ({| row_start := fst a; row_end := fst b; row_delta := fst b - fst a;
        row_count := c + snd a;
        row_start_date := mkTimestamp (fst a);
        row_end_date := mkTimestamp (fst b) |} :: rows_from (c + snd a) (b :: l)).
  destruct i as [|i].
  - intros H1 H2. cbn [lookup list_lookup] in H1, H2. injection H1 as <-.
    apply rows_from_head in H2. destruct H2 as [a' [Ha' ->]].
    cbn [lookup list_lookup] in Ha'. injection Ha' as <-. reflexivity.
  - cbn [lookup list_lookup]. apply IH.
Qed.

Lemma rows_from_widths (c : Z) (l : list entry) :
  StronglySorted key_lt l -> Forall (fun r => 0 < row_delta r) (rows_from c l).
Proof.
  intros Hs. revert c. induction Hs as [|a l Hl IH Ha]; intros c; [constructor|].
  destruct l as [|b l]; [constructor|].
  change (rows_from c (a :: b :: l)) with
    ({| row_start := fst a; row_end := fst b; row_delta := fst b - fst a;
        row_count := c + snd a;
        row_start_date := mkTimestamp (fst a);
        row_end_date := mkTimestamp (fst b) |} :: rows_from (c + snd a) (b :: l)).
  constructor; [|apply IH].
  simpl. inversion Ha as [|? ? Hab _]; subst. unfold key_lt, key in Hab. lia.
Qed.

Lemma remove_dups_NoDup (l : list Z) : NoDup l -> remove_dups l = l.
Proof.
  induction 1 as [|x l Hx _ IH]; simpl; [reflexivity|].
  destruct (decide_rel elem_of x l); [contradiction|]. rewrite IH. reflexivity.
Qed.

Lemma wf_distinct (self : Timeline) :
  wf self -> distinct_instant_count self = length (timeline self).
Proof.
  intros Hwf. unfold distinct_instant_count, instants.
  rewrite remove_dups_NoDup by (apply sorted_keys_NoDup, Hwf).
  apply length_map.
Qed.

Lemma partition_length (self : Timeline) (rows : list PartitionRow) :
  partition self = Ok rows -> length rows = (length (timeline self) - 1)%nat.
Proof.
  intros H. apply partition_Ok in H. subst rows. apply rows_from_length.
Qed.

Lemma dimension_Ok (self : Timeline) (rows : list PartitionRow) :
  partition self = Ok rows -> dimension self = Ok (length rows).
Proof. intros H. unfold dimension. rewrite H. reflexivity. Qed.

Lemma delta_x_Ok (self : Timeline) (rows : list PartitionRow) :
  partition self = Ok rows -> delta_x self = Ok (map row_delta rows).
Proof. intros H. unfold delta_x. rewrite H. reflexivity. Qed.

Lemma wf_representable (self : Timeline) :
  wf self ->
  representable (start_int self) -> representable (end_int self) ->
  Forall representable (instants self).
Proof.
  intros Hwf Hs He. unfold instants. apply Forall_fmap.
  eapply Forall_impl; [apply (wf_keys _ Hwf)|].
  intros x [H1 H2]. unfold representable in *. simpl. lia.
Qed.

(** ** The statistics *)

Lemma fold_left_add_acc (l : list Z) (a : Z) :
  fold_left Z.add l a = a + fold_left Z.add l 0.
Proof.
  revert a. induction l as [|x l IH]; intros a; cbn [fold_left]; [lia|].
  rewrite (IH (a + x)), (IH (0 + x)). lia.
Qed.

Lemma sigma_riemann (rows : list PartitionRow) :
  fold_left Z.add (map (fun i => row_count i * row_delta i) rows) 0
  = riemann_sum rows.
Proof.
  induction rows as [|r rows IH]; [reflexivity|].
  cbn [map fold_left foldr riemann_sum]. rewrite fold_left_add_acc, IH.
  unfold riemann_sum. lia.
Qed.

(** Two stored instants force a window of positive length. *)
Lemma wf_two_instants (self : Timeline) :
  wf self -> (1 < length (timeline self))%nat -> start_int self < end_int self.
Proof.
  intros [_ _ Hs Hk] Hlen.
  destruct (timeline self) as [|a [|b l]]; simpl in Hlen; try lia.
  inversion Hs as [|? ? _ Ha]; subst. inversion Ha as [|? ? Hab _]; subst.
  inversion Hk as [|? ? [Ha1 Ha2] Hk']; subst. inversion Hk' as [|? ? [Hb1 _] _]; subst.
  unfold key_lt in Hab. lia.
Qed.

Lemma average_short (self : Timeline) :
  (length (timeline self) <= 1)%nat -> average self = Some (Ok (Number 0)).
Proof.
  intros H. unfold average.
  destruct (Nat.leb_spec (length (timeline self)) 1); [reflexivity | lia].
Qed.

Lemma average_raise (self : Timeline) (e : exn) :
  (1 < length (timeline self))%nat ->
  partition self = Raise e -> average self = Some (Raise e).
Proof.
  intros Hlen H. unfold average.
  destruct (Nat.leb_spec (length (timeline self)) 1); [lia|].
  rewrite H. reflexivity.
Qed.

Lemma in_int64_spec (z : Z) : fits64 z = true <-> in_int64 z.
Proof.
  unfold fits64, in_int64. rewrite andb_true_iff, Z.leb_le, Z.ltb_lt.
  reflexivity.
Qed.

Lemma forallb_narrow (rows : list PartitionRow) :
  forallb (fun i => fits64 (row_count i) && fits64 (row_count i * row_delta i))
    rows = true
  <-> Forall narrow rows.
Proof.
  induction rows as [|r rows IH]; simpl.
  - split; [constructor | reflexivity].
  - rewrite !andb_true_iff, IH, !in_int64_spec, Forall_cons. reflexivity.
Qed.

Lemma wrap64_fits (z : Z) : in_int64 z -> wrap64 z = z.
Proof.
  unfold in_int64, wrap64. intros H.
  rewrite Z.mod_small by lia. lia.
Qed.

(** With two or more instants stored and 64-bit rows, [average] is the
    wrapped sum of the areas over the window length. *)
Lemma average_narrow (self : Timeline) (rows : list PartitionRow) :
  wf self -> (1 < length (timeline self))%nat ->
  partition self = Ok rows -> Forall narrow rows ->
  average self =
  Some (Ok (Number (inject_Z (wrap64 (riemann_sum rows))
                    / inject_Z (end_int self - start_int self)))).
Proof.
  intros Hwf Hlen Hp Hn. pose proof (wf_two_instants self Hwf Hlen) as Hlt.
  unfold average.
  destruct (Nat.leb_spec (length (timeline self)) 1); [lia|].
  rewrite Hp. rewrite (proj2 (forallb_narrow rows) Hn).
  rewrite sigma_riemann, <- (wf_start _ Hwf), <- (wf_end _ Hwf).
  destruct (Z.eqb_spec (end_int self - start_int self) 0); [lia | reflexivity].
Qed.

Lemma average_long (self : Timeline) (rows : list PartitionRow) :
  wf self -> (1 < length (timeline self))%nat ->
  partition self = Ok rows -> Forall narrow rows ->
  in_int64 (riemann_sum rows) ->
  average self =
  Some (Ok (Number (inject_Z (riemann_sum rows)
                    / inject_Z (end_int self - start_int self)))).
Proof.
  intros Hwf Hlen Hp Hn Hs.
  rewrite (average_narrow self rows) by assumption.
  rewrite wrap64_fits by exact Hs. reflexivity.
Qed.

(** With two or more instants stored, what [average] does is decided by
    [partition] and the width of the rows; the result is never the
    [inf] or [nan] of a zero denominator. *)
Lemma average_cases (self : Timeline) :
  wf self -> (1 < length (timeline self))%nat ->
  average self = Some (Raise OutOfBoundsDatetime)
  \/ average self = None
  \/ exists q, average self = Some (Ok (Number q)).
Proof.
  intros Hwf Hlen. destruct (partition self) as [rows|e] eqn:Hp.
  - pose proof (wf_two_instants self Hwf Hlen) as Hlt.
    right. unfold average.
    destruct (Nat.leb_spec (length (timeline self)) 1); [lia|].
    rewrite Hp. destruct (forallb _ rows); [|left; reflexivity].
    right. rewrite <- (wf_start _ Hwf), <- (wf_end _ Hwf).
    destruct (Z.eqb_spec (end_int self - start_int self) 0); [lia|].
    eexists. reflexivity.
  - left. destruct (partition_Raise self e Hp) as [-> _].
    apply average_raise; assumption.
Qed.

Lemma bare_init (s e : Z) :
  __init__ (Some (Unix s)) (Some (Unix e)) false false = Ok (bare s e).
Proof. reflexivity. Qed.

Lemma bare_reachable (s e : Z) : reachable (bare s e).
Proof.
  exact (reach_init (Some (Unix s)) (Some (Unix e)) false false (bare s e) eq_refl).
Defined.

(** ** Runs of [add] *)

Lemma add_instant_set_timeline (self : Timeline) (l : list entry) (time : timevalue) :
  add_instant (set_timeline self l) time = add_instant self time.
Proof. destruct time; reflexivity. Qed.

Lemma add_instant_add (self : Timeline) (tm : timevalue) (d : Z) (time : timevalue) :
  add_instant (add self tm d) time = add_instant self time.
Proof. rewrite add_fields. apply add_instant_set_timeline. Qed.

Lemma wf_adds (ops : list (timevalue * Z)) (self : Timeline) :
  wf self -> wf (adds self ops).
Proof.
  revert self. induction ops as [|op ops IH]; intros self Hwf; [exact Hwf|].
  apply IH, wf_add, Hwf.
Qed.

Lemma add_instant_adds (ops : list (timevalue * Z)) (self : Timeline) (time : timevalue) :
  add_instant (adds self ops) time = add_instant self time.
Proof.
  revert self. induction ops as [|op ops IH]; intros self; [reflexivity|].
  unfold adds in *. simpl. rewrite IH. apply add_instant_add.
Qed.

Lemma stores_at_instant (self : Timeline) (time : timevalue) (delta : Z) :
  wf self -> stores_at self time delta (add_instant self time).
Proof.
  intros Hwf. unfold stores_at.
  rewrite add_timeline, add_list_upsert by apply Hwf. split.
  - apply upsert_value_at, Hwf.
  - intros k Hk. apply upsert_value_at_ne, Hk.
Qed.

Lemma value_at_adds_ne (t : Z) (ops : list (timevalue * Z)) (self : Timeline) :
  wf self ->
  Forall (fun op => add_instant self (fst op) <> t) ops ->
  value_at t (timeline (adds self ops)) = value_at t (timeline self).
Proof.
  revert self. induction ops as [|op ops IH]; intros self Hwf Hops; [reflexivity|].
  inversion Hops as [|? ? Hop Hrest]; subst.
  change (adds self (op :: ops)) with (adds (add self (fst op) (snd op)) ops).
  rewrite IH.
  - apply (stores_at_instant self (fst op) (snd op) Hwf). congruence.
  - apply wf_add, Hwf.
  - eapply Forall_impl; [exact Hrest|]. intros o Ho. simpl in Ho.
    rewrite add_instant_add. exact Ho.
Qed.

Lemma reset_add (self : Timeline) (time : timevalue) (delta : Z) :
  _reset (add self time delta) = _reset self.
Proof. rewrite (add_fields self time delta). reflexivity. Qed.

Lemma reset_fold_rows (data : DataFrame) (self : Timeline) :
  _reset (fold_left
            (fun self row =>
               if local self
               then add (add self (start_time_local row) 1) (end_time_local row) (-1)
               else add (add self (start_time row) 1) (end_time row) (-1))
            data self) = _reset self.
Proof.
  revert self. induction data as [|row data IH]; intros self; [reflexivity|].
  simpl. rewrite IH. destruct (local self); rewrite !reset_add; reflexivity.
Qed.

Lemma reset_count (self : Timeline) (data : DataFrame) :
  _reset (count self data) = _reset self.
Proof. unfold count. rewrite reset_fold_rows. reflexivity. Qed.

(** * Properties stated by the specification *)

(** C1 (as amended).  The intervals [(0,5)] and [(2,7)] loaded into a
    Timeline with window [0,10], each contributing [add(start, +1)] and
    [add(end, -1)], give the three rows (start, end, width, count)
    (0,2,2,1), (2,5,3,2), (5,7,2,1); the Riemann sum is 2*1 + 3*2 + 2*1 = 10
    and [average()] is 10/10 = 1. *)
Theorem two_intervals_partition_average :
  let loaded := count (bare 0 10) two_intervals in
  __init__ (Some (Unix 0)) (Some (Unix 10)) false false = Ok (bare 0 10)
  /\ loaded = adds (bare 0 10)
                [(At (Unix 0), 1); (At (Unix 5), -1); (At (Unix 2), 1); (At (Unix 7), -1)]
  /\ map row4 <$> partition loaded = Ok [(0, 2, 2, 1); (2, 5, 3, 2); (5, 7, 2, 1)]
  /\ riemann_sum <$> partition loaded = Ok (2 * 1 + 3 * 2 + 2 * 1)
  /\ exists q, average loaded = Some (Ok (Number q)) /\ (q == 1)%Q.
Proof.
  repeat split.
  exists (10 # 10)%Q. split; reflexivity.
Qed.

(** C1 as stated fails: on that input [average()] is not 1.4. *)
Lemma two_intervals_average_is_not_1_4 :
  ~ (map row4 <$> partition (count (bare 0 10) two_intervals)
       = Ok [(0, 2, 2, 1); (2, 5, 3, 2); (5, 7, 2, 1)]
     /\ exists q, average (count (bare 0 10) two_intervals) = Some (Ok (Number q))
                  /\ (q == 14 # 10)%Q).
Proof.
  intros [_ [q [Havg Hq]]].
  change (Some (Ok (Number (10 # 10))) = Some (Ok (Number q))) in Havg.
  injection Havg as <-.
  unfold Qeq in Hq. simpl in Hq. discriminate Hq.
Qed.

Lemma far_reachable : reachable far.
Proof.
  exact (reach_add _ NaT (-1)
           (reach_add _ (At (Unix 0)) 1 (bare_reachable 0 (10 ^ 13)))).
Defined.

Lemma heavy_reachable : reachable heavy.
Proof.
  exact (reach_add _ (At (Unix 4)) 0
          (reach_add _ (At (Unix 3)) 0
            (reach_add _ (At (Unix 2)) 0
              (reach_add _ (At (Unix 1)) 0
                (reach_add _ (At (Unix 0)) (2 ^ 62) (bare_reachable 0 10)))))).
Defined.

Lemma two_intervals_representable :
  Forall representable (instants (count (bare 0 10) two_intervals)).
Proof.
  repeat constructor; intros H; discriminate H.
Defined.

(** C2 (as amended).  [average()] returns 0 when at most one instant is
    stored.  Otherwise the window length [end_int - start_int] is not zero
    and: when every stored instant is in the range of [pandas.Timestamp]
    and the counts, the areas [count * width] and their sum [sigma] fit in
    64 bits, it returns [sigma / (end_int - start_int)] (a sum that does
    not fit is wrapped to 64 bits first); when a stored instant is out of
    that range it raises [OutOfBoundsDatetime]. *)
Theorem average_riemann (self : Timeline) :
  reachable self ->
  ((length (timeline self) <= 1)%nat -> average self = Some (Ok (Number 0)))
  /\ ((1 < length (timeline self))%nat ->
      end_int self - start_int self <> 0
      /\ (Forall representable (instants self) ->
          exists rows, partition self = Ok rows
            /\ (Forall narrow rows -> in_int64 (riemann_sum rows) ->
                average self =
                Some (Ok (Number (inject_Z (riemann_sum rows)
                                  / inject_Z (end_int self - start_int self)))))
            /\ (Forall narrow rows ->
                average self =
                Some (Ok (Number (inject_Z (wrap64 (riemann_sum rows))
                                  / inject_Z (end_int self - start_int self))))))
      /\ (~ Forall representable (instants self) ->
          average self = Some (Raise OutOfBoundsDatetime))).
Proof.
  intros Hr. apply reachable_wf in Hr. split; [apply average_short|].
  intros Hlen. split; [|split].
  - pose proof (wf_two_instants self Hr Hlen). lia.
  - intros Hrep. exists (rows_from 0 (timeline self)).
    pose proof (partition_representable self Hrep) as Hp.
    split; [exact Hp|]. split.
    + intros Hn Hs. apply average_long; assumption.
    + intros Hn. apply average_narrow; assumption.
  - intros Hnot. apply average_raise; [exact Hlen|].
    apply partition_out_of_range; assumption.
Qed.

Lemma average_riemann_witness :
  reachable (count (bare 0 10) two_intervals)
  /\ (1 < length (timeline (count (bare 0 10) two_intervals)))%nat
  /\ Forall representable (instants (count (bare 0 10) two_intervals))
  /\ average (count (bare 0 10) two_intervals)
     = Some (Ok (Number (inject_Z (2 * 1 + 3 * 2 + 2 * 1) / inject_Z (10 - 0)))).
Proof.
  assert (Hlen : (1 < length (timeline (count (bare 0 10) two_intervals)))%nat).
  { vm_compute. lia. }
  split; [apply reach_count, bare_reachable|]. split; [exact Hlen|].
  split; [exact two_intervals_representable|].
  destruct (average_riemann (count (bare 0 10) two_intervals)
              (reach_count _ _ (bare_reachable 0 10))) as [_ Hlong].
  destruct (Hlong Hlen) as [_ [Hin _]].
  destruct (Hin two_intervals_representable) as [rows [Hp [Hexact _]]].
  vm_compute in Hp. injection Hp as <-.
  apply Hexact.
  - repeat constructor; vm_compute; congruence.
  - split; vm_compute; congruence.
Defined.

(** C2 as stated fails at the limits of the library: with the instants 0
    and [10^13] stored [average()] raises instead of returning
    [10^13 / 10^13], and with four areas of [2^62] on the window [0,10] it
    returns [0 / 10], not [2^64 / 10]. *)
Lemma average_is_not_always_the_riemann_quotient :
  reachable far
  /\ length (timeline far) = 2%nat
  /\ average far = Some (Raise OutOfBoundsDatetime)
  /\ reachable heavy
  /\ riemann_sum <$> partition heavy = Ok (2 ^ 64)
  /\ average heavy = Some (Ok (Number (inject_Z 0 / inject_Z 10)))
  /\ ~ (inject_Z 0 / inject_Z 10 == inject_Z (2 ^ 64) / inject_Z 10)%Q.
Proof.
  split; [exact far_reachable|]. split; [reflexivity|]. split; [reflexivity|].
  split; [exact heavy_reachable|]. split; [reflexivity|]. split; [reflexivity|].
  intros H. vm_compute in H. discriminate H.
Qed.

(** C3 (as amended).  [add(t, d)] files [d] under [min(e, max(s, t))] for
    every window [s, e]; this is [max(s, min(e, t))] whenever [s <= e], and
    [e] on an inverted window.  An absent [t] ([None] or [NaT]) is filed
    under [e]. *)
Theorem add_clamps_into_window (self : Timeline) (delta : Z) :
  reachable self ->
  (forall ts, stores_at self (At ts) delta
                (Z.min (end_int self) (Z.max (start_int self) (_ts2int ts))))
  /\ (start_int self <= end_int self ->
      forall ts, stores_at self (At ts) delta
                   (Z.max (start_int self) (Z.min (end_int self) (_ts2int ts))))
  /\ (end_int self < start_int self ->
      forall ts, stores_at self (At ts) delta (end_int self))
  /\ stores_at self PyNone delta (end_int self)
  /\ stores_at self NaT delta (end_int self).
Proof.
  intros Hr. apply reachable_wf in Hr.
  split; [|split; [|split; [|split]]].
  - intros ts.
    replace (Z.min _ _) with (add_instant self (At ts)) by (simpl; lia).
    apply stores_at_instant, Hr.
  - intros Hle ts.
    replace (Z.max _ _) with (add_instant self (At ts)) by (simpl; lia).
    apply stores_at_instant, Hr.
  - intros Hlt ts.
    pose proof (stores_at_instant self (At ts) delta Hr) as H.
    replace (add_instant self (At ts)) with (end_int self) in H by (simpl; lia).
    exact H.
  - apply (stores_at_instant self PyNone delta Hr).
  - apply (stores_at_instant self NaT delta Hr).
Qed.

Lemma add_clamps_into_window_witness :
  reachable (bare 0 10)
  /\ start_int (bare 0 10) <= end_int (bare 0 10)
  /\ stores_at (bare 0 10) (At (Unix 12)) 1 10
  /\ stores_at (bare 0 10) (At (Unix (-4))) 1 0
  /\ stores_at (bare 0 10) PyNone 1 10.
Proof.
  pose proof (add_clamps_into_window (bare 0 10) 1 (bare_reachable 0 10))
    as [_ [Hclamp [_ [Hnone _]]]].
  assert (Hle : start_int (bare 0 10) <= end_int (bare 0 10))
    by (intros Hgt; discriminate Hgt).
  split; [apply bare_reachable|]. split; [exact Hle|].
  split; [exact (Hclamp Hle (Unix 12))|].
  split; [exact (Hclamp Hle (Unix (-4))) | exact Hnone].
Defined.

(** C3 as stated fails on an inverted window: with [s = 10], [e = 0] the
    call [add(5, 1)] files the delta under 0, not under
    [max(10, min(0, 5)) = 10]. *)
Lemma add_inverted_window_not_at_max_min :
  __init__ (Some (Unix 10)) (Some (Unix 0)) false false = Ok (bare 10 0)
  /\ timeline (add (bare 10 0) (At (Unix 5)) 1) = [(0, 1)]
  /\ ~ stores_at (bare 10 0) (At (Unix 5)) 1 (Z.max 10 (Z.min 0 5)).
Proof.
  split; [reflexivity|]. split; [reflexivity|].
  intros [H _]. vm_compute in H. discriminate H.
Qed.

(** C4.  Two [add] calls whose times clamp to the same instant [t], with
    deltas [d1] and [d2] (other calls, at other instants, may come between
    them), leave exactly one entry under [t]; its value is [d1 + d2] when
    nothing was stored under [t] before, and in general the earlier value
    plus [d1 + d2].  No two entries ever share an instant and the entries
    stay in ascending order of instant. *)
Theorem add_coalesces (self : Timeline) (time1 time2 : timevalue) (d1 d2 : Z)
  (mid : list (timevalue * Z)) :
  reachable self ->
  add_instant self time1 = add_instant self time2 ->
  Forall (fun op => add_instant self (fst op) <> add_instant self time1) mid ->
  let t := add_instant self time1 in
  let after := add (adds (add self time1 d1) mid) time2 d2 in
  (entries_at t self = [] -> entries_at t after = [(t, d1 + d2)])
  /\ entries_at t after = [(t, default 0 (value_at t (timeline self)) + d1 + d2)]
  /\ NoDup (instants self) /\ StronglySorted Z.lt (instants self)
  /\ NoDup (instants after) /\ StronglySorted Z.lt (instants after).
Proof.
  intros Hr Heq Hmid t after. apply reachable_wf in Hr.
  assert (Hw1 : wf (add self time1 d1)) by apply wf_add, Hr.
  assert (Hw2 : wf (adds (add self time1 d1) mid)) by apply wf_adds, Hw1.
  assert (Hw3 : wf after) by apply wf_add, Hw2.
  assert (Hval : value_at t (timeline after)
                 = Some (default 0 (value_at t (timeline self)) + d1 + d2)).
  { pose proof (stores_at_instant _ time2 d2 Hw2) as [H2 _].
    rewrite add_instant_adds, add_instant_add, <- Heq in H2.
    fold t in H2. fold after in H2. rewrite H2.
    rewrite value_at_adds_ne; [|exact Hw1|].
    - pose proof (stores_at_instant self time1 d1 Hr) as [H1 _].
      fold t in H1. rewrite H1. reflexivity.
    - eapply Forall_impl; [exact Hmid|]. intros op Hop. simpl in Hop.
      rewrite add_instant_add. exact Hop. }
  assert (Hone : entries_at t after
                 = [(t, default 0 (value_at t (timeline self)) + d1 + d2)]).
  { unfold entries_at. rewrite filter_key_value_at by apply Hw3.
    rewrite Hval. reflexivity. }
  split; [|split; [exact Hone|]].
  - intros Hnone. rewrite Hone. unfold entries_at in Hnone.
    rewrite filter_key_value_at in Hnone by apply Hr.
    destruct (value_at t (timeline self)); [discriminate Hnone | reflexivity].
  - unfold instants.
    split; [apply sorted_keys_NoDup, Hr|].
    split; [apply sorted_keys_ascending, Hr|].
    split; [apply sorted_keys_NoDup, Hw3 | apply sorted_keys_ascending, Hw3].
Qed.

Lemma add_coalesces_witness :
  reachable (bare 0 10)
  /\ add_instant (bare 0 10) (At (Unix 12)) = add_instant (bare 0 10) NaT
  /\ Forall (fun op => add_instant (bare 0 10) (fst op)
                       <> add_instant (bare 0 10) (At (Unix 12)))
       [(At (Unix 3), 1)]
  /\ entries_at 10
       (add (adds (add (bare 0 10) (At (Unix 12)) 2) [(At (Unix 3), 1)]) NaT 3)
     = [(10, 2 + 3)].
Proof.
  assert (Hmid : Forall (fun op => add_instant (bare 0 10) (fst op)
                                   <> add_instant (bare 0 10) (At (Unix 12)))
                   [(At (Unix 3), 1)]).
  { constructor; [intros H; discriminate H | constructor]. }
  split; [apply bare_reachable|]. split; [reflexivity|]. split; [exact Hmid|].
  apply (add_coalesces (bare 0 10) (At (Unix 12)) NaT 2 3 [(At (Unix 3), 1)]
           (bare_reachable 0 10) eq_refl Hmid).
Defined.

(** C5 (as amended).  For every populated accumulator whose stored
    instants are in the range of [pandas.Timestamp], each row of the
    partition ends where the next one starts, every width is strictly
    positive, and [dimension()] is
    [max(0, number of distinct stored instants - 1)]; the same holds of
    the rows whenever [partition()] returns.  With fewer than two stored
    instants the partition is empty.  With two or more, one of them out of
    that range, [partition()] and [dimension()] raise
    [OutOfBoundsDatetime]. *)
Theorem partition_invariants (self : Timeline) :
  reachable self ->
  (Forall representable (instants self) ->
   exists rows, partition self = Ok rows
     /\ dimension self = Ok (length rows)
     /\ contiguous rows
     /\ Forall (fun r => 0 < row_delta r) rows
     /\ Z.of_nat (length rows)
        = Z.max 0 (Z.of_nat (distinct_instant_count self) - 1))
  /\ (forall rows, partition self = Ok rows ->
      dimension self = Ok (length rows)
      /\ contiguous rows
      /\ Forall (fun r => 0 < row_delta r) rows
      /\ Z.of_nat (length rows)
         = Z.max 0 (Z.of_nat (distinct_instant_count self) - 1))
  /\ ((distinct_instant_count self < 2)%nat ->
      partition self = Ok [] /\ dimension self = Ok O)
  /\ ((2 <= distinct_instant_count self)%nat ->
      ~ Forall representable (instants self) ->
      partition self = Raise OutOfBoundsDatetime
      /\ dimension self = Raise OutOfBoundsDatetime).
Proof.
  intros Hr. apply reachable_wf in Hr.
  pose proof (wf_distinct self Hr) as Hd.
  assert (Hrows : forall rows, partition self = Ok rows ->
            dimension self = Ok (length rows)
            /\ contiguous rows
            /\ Forall (fun r => 0 < row_delta r) rows
            /\ Z.of_nat (length rows)
               = Z.max 0 (Z.of_nat (distinct_instant_count self) - 1)).
  { intros rows Hp. split; [apply dimension_Ok, Hp|].
    pose proof (partition_length self rows Hp) as Hlen.
    apply partition_Ok in Hp. subst rows.
    split; [apply rows_from_contiguous|].
    split; [apply rows_from_widths, Hr|]. rewrite Hlen, Hd. lia. }
  split; [|split; [exact Hrows|split]].
  - intros Hrep. exists (rows_from 0 (timeline self)).
    pose proof (partition_representable self Hrep) as Hp.
    split; [exact Hp | apply Hrows, Hp].
  - intros Hlt. rewrite Hd in Hlt.
    assert (Hp : partition self = Ok []) by (apply partition_short; lia).
    split; [exact Hp | apply (dimension_Ok self [] Hp)].
  - intros Hge Hnot. rewrite Hd in Hge.
    assert (Hp : partition self = Raise OutOfBoundsDatetime)
      by (apply partition_out_of_range; [lia | exact Hnot]).
    split; [exact Hp|]. unfold dimension. rewrite Hp. reflexivity.
Qed.

Lemma partition_invariants_witness :
  reachable (count (bare 0 10) two_intervals)
  /\ Forall representable (instants (count (bare 0 10) two_intervals))
  /\ dimension (count (bare 0 10) two_intervals) = Ok 3%nat.
Proof.
  split; [apply reach_count, bare_reachable|].
  split; [exact two_intervals_representable|].
  destruct (partition_invariants (count (bare 0 10) two_intervals)
              (reach_count _ _ (bare_reachable 0 10))) as [Hin _].
  destruct (Hin two_intervals_representable) as [rows [Hp [Hdim _]]].
  vm_compute in Hp. injection Hp as <-. exact Hdim.
Defined.

(** C5 as stated fails past the range of the library: with the instants 0
    and [10^13] stored, [partition()] and [dimension()] raise, where the
    claim has one row. *)
Lemma partition_raises_out_of_range :
  reachable far
  /\ distinct_instant_count far = 2%nat
  /\ partition far = Raise OutOfBoundsDatetime
  /\ dimension far = Raise OutOfBoundsDatetime.
Proof.
  split; [exact far_reachable|]. repeat split.
Qed.

(** C6.  When the partition has no row, [norm()] raises the [ValueError]
    of [max] on an empty sequence, while [average()] on the same state
    returns 0 without raising. *)
Theorem empty_partition_statistics (self : Timeline) :
  dimension self = Ok O ->
  norm self = Raise ValueError /\ average self = Some (Ok (Number 0)).
Proof.
  intros Hdim. unfold dimension in Hdim.
  destruct (partition self) as [rows|e] eqn:Hp; [|discriminate Hdim].
  cbn in Hdim. injection Hdim as Hdim.
  apply length_zero_iff_nil in Hdim. subst rows. split.
  - unfold norm, delta_x. rewrite Hp. reflexivity.
  - apply average_short. apply partition_length in Hp. simpl in Hp. lia.
Qed.

Lemma empty_partition_statistics_witness :
  dimension (add (bare 0 10) NaT 1) = Ok O
  /\ norm (add (bare 0 10) NaT 1) = Raise ValueError
  /\ average (add (bare 0 10) NaT 1) = Some (Ok (Number 0)).
Proof.
  split; [reflexivity|].
  apply (empty_partition_statistics (add (bare 0 10) NaT 1)). reflexivity.
Defined.

(** C7.  [count] resets before loading: its result does not depend on what
    was stored before, so loading the same records twice gives the same
    partition both times and deltas never accumulate across calls. *)
Theorem count_resets_first (self : Timeline) (data : DataFrame) :
  count self data = count (_reset self) data
  /\ (forall stored, count (set_timeline self stored) data = count self data)
  /\ (forall earlier, count (count self earlier) data = count self data)
  /\ count (count self data) data = count self data
  /\ partition (count (count self data) data) = partition (count self data).
Proof.
  assert (Hprev : forall earlier, count (count self earlier) data = count self data).
  { intros earlier. unfold count at 1. rewrite reset_count. reflexivity. }
  split; [reflexivity|]. split; [reflexivity|]. split; [exact Hprev|].
  split; [apply Hprev | rewrite Hprev; reflexivity].
Qed.

(** C8.  Initialization raises (the [TypeError] of line 32, the
    specification's [InvalidRangeError]) whenever [start] or [end] is
    [None], and then no instance is constructed. *)
Theorem init_rejects_missing_bound (start end_ : option instant)
  (local debug : bool) :
  start = None \/ end_ = None ->
  __init__ start end_ local debug = Raise TypeError
  /\ (forall self, __init__ start end_ local debug <> Ok self)
  /\ (forall h, new_Timeline start end_ local debug h = (Raise TypeError, h)).
Proof.
  intros Hnone.
  assert (H : __init__ start end_ local debug = Raise TypeError).
  { destruct Hnone as [-> | ->]; [reflexivity|]. destruct start; reflexivity. }
  split; [exact H|]. split.
  - intros self Hok. rewrite H in Hok. discriminate Hok.
  - intros h. unfold new_Timeline. rewrite H. reflexivity.
Qed.

Lemma init_rejects_missing_bound_witness :
  (Some (Unix 0) = None \/ @None instant = None)
  /\ __init__ (Some (Unix 0)) None false false = Raise TypeError.
Proof.
  split; [right; reflexivity|].
  apply (init_rejects_missing_bound (Some (Unix 0)) None false false).
  right. reflexivity.
Defined.

(** C9.  With [start_int <= end_int], [average()] never divides by zero:
    when [end_int - start_int = 0] every [add] clamps to that single
    instant, at most one instant is stored and [average()] returns 0
    before the division.  (The denominator is not zero whenever the
    division is reached, and the result is never the [inf] or [nan] of a
    division by zero.) *)
Theorem average_never_divides_by_zero (self : Timeline) :
  reachable self ->
  start_int self <= end_int self ->
  (average self <> Some (Ok NotFinite)
   /\ ((1 < length (timeline self))%nat ->
       _ts2int (end_ self) - _ts2int (start self) <> 0)
   /\ (average self = Some (Raise OutOfBoundsDatetime)
       \/ average self = None
       \/ exists q, average self = Some (Ok (Number q))))
  /\ (end_int self - start_int self = 0 ->
      (forall time, add_instant self time = start_int self)
      /\ (length (timeline self) <= 1)%nat
      /\ average self = Some (Ok (Number 0))).
Proof.
  intros Hr Hle. apply reachable_wf in Hr.
  assert (Hcases : average self = Some (Raise OutOfBoundsDatetime)
                   \/ average self = None
                   \/ exists q, average self = Some (Ok (Number q))).
  { destruct (le_lt_dec (length (timeline self)) 1) as [Hlen|Hlen].
    - right. right. exists 0%Q. apply average_short, Hlen.
    - apply average_cases; assumption. }
  split; [split; [|split; [|exact Hcases]]|].
  - destruct Hcases as [H|[H|[q H]]]; rewrite H; discriminate.
  - intros Hlen. pose proof (wf_two_instants self Hr Hlen).
    rewrite <- (wf_start _ Hr), <- (wf_end _ Hr). lia.
  - intros Hzero.
    assert (Hlen : (length (timeline self) <= 1)%nat).
    { destruct (le_lt_dec (length (timeline self)) 1) as [Hlen|Hlen]; [exact Hlen|].
      pose proof (wf_two_instants self Hr Hlen). lia. }
    split; [|split; [exact Hlen | apply average_short, Hlen]].
    intros [| |ts]; simpl; lia.
Qed.

Lemma average_never_divides_by_zero_witness :
  reachable (count (bare 3 3) two_intervals)
  /\ start_int (count (bare 3 3) two_intervals)
     <= end_int (count (bare 3 3) two_intervals)
  /\ average (count (bare 3 3) two_intervals) = Some (Ok (Number 0)).
Proof.
  assert (Hle : start_int (count (bare 3 3) two_intervals)
                <= end_int (count (bare 3 3) two_intervals))
    by (intros Hgt; discriminate Hgt).
  split; [apply reach_count, bare_reachable|]. split; [exact Hle|].
  apply (average_never_divides_by_zero (count (bare 3 3) two_intervals)
           (reach_count _ _ (bare_reachable 3 3)) Hle).
  reflexivity.
Defined.

(** ** Method calls on the store *)

Lemma local_add (self : Timeline) (time : timevalue) (delta : Z) :
  local (add self time delta) = local self.
Proof. rewrite add_fields. reflexivity. Qed.

Lemma mutate_run (self : ref) (f : Timeline -> Timeline)
  (h : gmap nat Timeline) (st : Timeline) :
  h !! self = Some st -> mutate self f h = Some (Ok tt, <[self := f st]> h).
Proof. intros H. unfold mutate. rewrite H. reflexivity. Qed.

Lemma attributes_run (self : ref) (h : gmap nat Timeline) (st : Timeline) :
  h !! self = Some st -> attributes self h = Some (Ok st, h).
Proof. intros H. unfold attributes. rewrite H. reflexivity. Qed.

Lemma call_bind_run {A B : Type} (c : call A) (k : A -> call B)
  (h : gmap nat Timeline) :
  (c ≫= k) h
  = match c h with
    | Some (Ok a, h') => k a h'
    | Some (Raise e, h') => Some (Raise e, h')
    | None => None
    end.
Proof. reflexivity. Qed.

(** One row of the loop on cells that hold time values. *)
Lemma count_row_run (self : ref) (row : Series) (rows : list Series)
  (h : gmap nat Timeline) (st : Timeline) (t1 t2 : timevalue) :
  h !! self = Some st ->
  start_cell st row = Cell t1 -> end_cell st row = Cell t2 ->
  Timeline_count_rows self (row :: rows) h
  = Timeline_count_rows self rows (<[self := add (add st t1 1) t2 (-1)]> h).
Proof.
  intros Hst H1 H2. cbn [Timeline_count_rows].
  rewrite call_bind_run, (attributes_run self h st Hst).
  rewrite call_bind_run. unfold start_cell, end_cell in H1, H2.
  destruct (local st); rewrite call_bind_run, H1; cbn [Timeline_add];
    rewrite (mutate_run self _ h st Hst), H2; cbn [Timeline_add];
    rewrite (mutate_run self _ _ (add st t1 1)) by apply lookup_insert_eq;
    rewrite insert_insert_eq; reflexivity.
Qed.

(** One row of the loop with a [nan] among the cells read. *)
Lemma count_row_nan (self : ref) (row : Series) (rows : list Series)
  (h : gmap nat Timeline) (st : Timeline) :
  h !! self = Some st ->
  start_cell st row = NaN \/ end_cell st row = NaN ->
  exists h', Timeline_count_rows self (row :: rows) h
             = Some (Raise ValueError, h')
             /\ dom h' = dom h.
Proof.
  intros Hst Hnan. cbn [Timeline_count_rows].
  rewrite call_bind_run, (attributes_run self h st Hst).
  rewrite call_bind_run. unfold start_cell, end_cell in Hnan.
  assert (Hdom : forall x, dom (<[self := x]> h) = dom h).
  { intros x. apply dom_insert_lookup_L. exists st. exact Hst. }
  destruct (local st); rewrite call_bind_run;
    [destruct (start_time_local_cell row) as [t1|] eqn:E1
    |destruct (start_time_cell row) as [t1|] eqn:E1];
    cbn [Timeline_add];
    try (exists h; split; reflexivity);
    rewrite (mutate_run self _ h st Hst);
    destruct Hnan as [Hnan|Hnan]; try discriminate Hnan;
    rewrite Hnan; cbn [Timeline_add];
    eexists; (split; [reflexivity | apply Hdom]).
Qed.

Lemma count_rows_typed (self : ref) (obj : Timeline) (data : list Series)
  (typed : DataFrame) :
  Forall2 (fun row rec => start_cell obj row = Cell (start_of obj rec)
                          /\ end_cell obj row = Cell (end_of obj rec))
    data typed ->
  forall (h : gmap nat Timeline) (st : Timeline),
    h !! self = Some st -> local st = local obj ->
    Timeline_count_rows self data h
    = Some (Ok tt,
            <[self := fold_left
                        (fun self row =>
                           if local self
                           then add (add self (start_time_local row) 1)
                                  (end_time_local row) (-1)
                           else add (add self (start_time row) 1)
                                  (end_time row) (-1))
                        typed st]> h).
Proof.
  induction 1 as [|row rec data typed [H1 H2] _ IH]; intros h st Hst Hl.
  - cbn. rewrite insert_id by exact Hst. reflexivity.
  - assert (E1 : start_cell st row = Cell (start_of st rec)).
    { unfold start_cell, start_of in *. rewrite Hl. exact H1. }
    assert (E2 : end_cell st row = Cell (end_of st rec)).
    { unfold end_cell, end_of in *. rewrite Hl. exact H2. }
    rewrite (count_row_run self row data h st _ _ Hst E1 E2).
    rewrite (IH _ (add (add st (start_of st rec) 1) (end_of st rec) (-1)))
      by (try apply lookup_insert_eq; rewrite !local_add; exact Hl).
    rewrite insert_insert_eq. cbn [fold_left]. unfold start_of, end_of.
    destruct (local st); reflexivity.
Qed.

(** The loop ends normally or with the [ValueError] of a [nan], and
    allocates nothing. *)
Lemma count_rows_outcome (self : ref) (data : list Series) :
  forall (h : gmap nat Timeline) (st : Timeline),
    h !! self = Some st ->
    exists r h', Timeline_count_rows self data h = Some (r, h')
      /\ (r = Ok tt \/ r = Raise ValueError) /\ dom h' = dom h.
Proof.
  induction data as [|row data IH]; intros h st Hst.
  - exists (Ok tt), h. split; [reflexivity|]. split; [left|]; reflexivity.
  - destruct (start_cell st row) as [t1|] eqn:E1;
      [destruct (end_cell st row) as [t2|] eqn:E2|].
    + rewrite (count_row_run self row data h st t1 t2 Hst E1 E2).
      destruct (IH (<[self := add (add st t1 1) t2 (-1)]> h) _
                  (lookup_insert_eq _ _ _)) as [r [h' [Hrun [Hr Hdom]]]].
      exists r, h'. split; [exact Hrun|]. split; [exact Hr|].
      rewrite Hdom. apply dom_insert_lookup_L. exists st. exact Hst.
    + destruct (count_row_nan self row data h st Hst (or_intror E2))
        as [h' [Hrun Hdom]].
      exists (Raise ValueError), h'. split; [exact Hrun|].
      split; [right; reflexivity | exact Hdom].
    + destruct (count_row_nan self row data h st Hst (or_introl E1))
        as [h' [Hrun Hdom]].
      exists (Raise ValueError), h'. split; [exact Hrun|].
      split; [right; reflexivity | exact Hdom].
Qed.

Lemma count_rows_nan (self : ref) (obj : Timeline) (data : list Series) :
  Exists (fun row => start_cell obj row = NaN \/ end_cell obj row = NaN) data ->
  forall (h : gmap nat Timeline) (st : Timeline),
    h !! self = Some st -> local st = local obj ->
    exists h', Timeline_count_rows self data h = Some (Raise ValueError, h').
Proof.
  induction data as [|row data IH]; intros Hex h st Hst Hl.
  - inversion Hex.
  - assert (Es : forall r, start_cell st r = start_cell obj r)
      by (intros r; unfold start_cell; rewrite Hl; reflexivity).
    assert (Ee : forall r, end_cell st r = end_cell obj r)
      by (intros r; unfold end_cell; rewrite Hl; reflexivity).
    destruct (start_cell st row) as [t1|] eqn:E1;
      [destruct (end_cell st row) as [t2|] eqn:E2|].
    + rewrite (count_row_run self row data h st t1 t2 Hst E1 E2).
      apply (IH ltac:(inversion Hex as [? ? [H|H]|]; subst;
                      [rewrite <- Es, E1 in H; discriminate H
                      |rewrite <- Ee, E2 in H; discriminate H
                      |assumption])
               _ (add (add st t1 1) t2 (-1))).
      * apply lookup_insert_eq.
      * rewrite !local_add. exact Hl.
    + destruct (count_row_nan self row data h st Hst (or_intror E2))
        as [h' [Hrun _]]. exists h'. exact Hrun.
    + destruct (count_row_nan self row data h st Hst (or_introl E1))
        as [h' [Hrun _]]. exists h'. exact Hrun.
Qed.

(** C10 (as amended).  [count(data)] returns the instance it was called on
    for every record sequence whose start and end cells, in the pair of
    columns chosen by [self.local], are time values: the same reference,
    no new object, so that a query can be chained on the result.  A [nan]
    among these cells makes it raise [ValueError] instead; whenever it
    returns, it returns that instance. *)
Theorem count_returns_self (h : gmap nat Timeline) (self : ref)
  (obj : Timeline) (data : list Series) :
  h !! self = Some obj ->
  (forall typed,
      Forall2 (fun row rec => start_cell obj row = Cell (start_of obj rec)
                              /\ end_cell obj row = Cell (end_of obj rec))
        data typed ->
      Timeline_count self data h = Some (Ok self, <[self := count obj typed]> h)
      /\ Timeline_partition self (<[self := count obj typed]> h)
         = Some (partition (count obj typed), <[self := count obj typed]> h))
  /\ (Exists (fun row => start_cell obj row = NaN \/ end_cell obj row = NaN) data ->
      exists h', Timeline_count self data h = Some (Raise ValueError, h'))
  /\ (exists r h', Timeline_count self data h = Some (r, h')
        /\ (r = Ok self \/ r = Raise ValueError) /\ dom h' = dom h).
Proof.
  intros Hself.
  assert (Hreset : Timeline_reset self h = Some (Ok tt, <[self := _reset obj]> h))
    by (apply mutate_run, Hself).
  assert (Hdom : dom (<[self := _reset obj]> h) = dom h).
  { apply dom_insert_lookup_L. exists obj. exact Hself. }
  unfold Timeline_count. rewrite call_bind_run, Hreset, call_bind_run.
  split; [|split].
  - intros typed Htyped.
    rewrite (count_rows_typed self obj data typed Htyped _ (_reset obj))
      by (try apply lookup_insert_eq; reflexivity).
    rewrite insert_insert_eq. split; [reflexivity|].
    unfold Timeline_partition. rewrite call_bind_run.
    rewrite (attributes_run self _ (count obj typed)) by apply lookup_insert_eq.
    reflexivity.
  - intros Hex.
    destruct (count_rows_nan self obj data Hex (<[self := _reset obj]> h)
                (_reset obj) (lookup_insert_eq _ _ _) eq_refl) as [h' Hrun].
    exists h'. rewrite Hrun. reflexivity.
  - destruct (count_rows_outcome self data (<[self := _reset obj]> h)
                (_reset obj) (lookup_insert_eq _ _ _))
      as [r [h' [Hrun [Hr Hd]]]].
    rewrite Hrun. destruct Hr as [-> | ->].
    + exists (Ok self), h'. split; [reflexivity|]. split; [left; reflexivity|].
      rewrite Hd. exact Hdom.
    + exists (Raise ValueError), h'. split; [reflexivity|].
      split; [right; reflexivity|]. rewrite Hd. exact Hdom.
Qed.

Lemma count_returns_self_witness :
  ({[ 7%nat := bare 0 10 ]} : gmap nat Timeline) !! 7%nat = Some (bare 0 10)
  /\ Forall2 (fun row rec => start_cell (bare 0 10) row = Cell (start_of (bare 0 10) rec)
                             /\ end_cell (bare 0 10) row = Cell (end_of (bare 0 10) rec))
       (map cells two_intervals) two_intervals
  /\ Timeline_count 7%nat (map cells two_intervals) {[ 7%nat := bare 0 10 ]}
     = Some (Ok 7%nat, <[7%nat := count (bare 0 10) two_intervals]> {[ 7%nat := bare 0 10 ]}).
Proof.
  assert (H : ({[ 7%nat := bare 0 10 ]} : gmap nat Timeline) !! 7%nat
              = Some (bare 0 10)).
  { apply lookup_singleton_eq. }
  assert (H2 : Forall2 (fun row rec =>
                          start_cell (bare 0 10) row = Cell (start_of (bare 0 10) rec)
                          /\ end_cell (bare 0 10) row = Cell (end_of (bare 0 10) rec))
                 (map cells two_intervals) two_intervals).
  { repeat constructor. }
  split; [exact H|]. split; [exact H2|].
  destruct (count_returns_self _ 7%nat (bare 0 10) (map cells two_intervals) H)
    as [Hok _].
  exact (proj1 (Hok two_intervals H2)).
Defined.

(** C10 as stated fails on a row whose end is the [nan] of a numeric
    column: [count] raises [ValueError] after storing the start, and
    returns nothing. *)
Lemma count_raises_on_nan :
  Timeline_count 7%nat
    [ {| start_time_cell := Cell (At (Unix 0)); end_time_cell := NaN;
         start_time_local_cell := Cell (At (Unix 0)); end_time_local_cell := NaN |} ]
    {[ 7%nat := bare 0 10 ]}
  = Some (Raise ValueError, {[ 7%nat := add (bare 0 10) (At (Unix 0)) 1 ]}).
Proof.
  unfold Timeline_count. rewrite call_bind_run.
  unfold Timeline_reset.
  rewrite (mutate_run 7%nat _reset _ (bare 0 10)) by apply lookup_singleton_eq.
  rewrite insert_singleton_eq, call_bind_run.
  cbn [Timeline_count_rows]. rewrite call_bind_run.
  rewrite (attributes_run 7%nat _ (_reset (bare 0 10))) by apply lookup_singleton_eq.
  cbn [local _reset set_timeline bare]. rewrite !call_bind_run.
  cbn [Timeline_add start_time_cell end_time_cell].
  rewrite (mutate_run 7%nat _ _ (_reset (bare 0 10))) by apply lookup_singleton_eq.
  rewrite insert_singleton_eq. reflexivity.
Qed.

(** * Further properties of the code *)

(** ** Runs of [add] on the list of entries *)

Lemma add_set_timeline (self : Timeline) (time : timevalue) (delta : Z) :
  StronglySorted key_lt (timeline self) ->
  add self time delta
  = set_timeline self (upsert (add_instant self time) delta (timeline self)).
Proof.
  intros Hs. rewrite add_fields, add_timeline, add_list_upsert by exact Hs.
  reflexivity.
Qed.

Lemma upsert_all_sorted (self : Timeline) (ops : list (timevalue * Z))
  (l : list entry) :
  StronglySorted key_lt l -> StronglySorted key_lt (upsert_all self ops l).
Proof.
  revert l. induction ops as [|op ops IH]; intros l Hl; [exact Hl|].
  apply IH, upsert_sorted, Hl.
Qed.

Lemma adds_set_timeline (ops : list (timevalue * Z)) (self : Timeline) :
  StronglySorted key_lt (timeline self) ->
  adds self ops = set_timeline self (upsert_all self ops (timeline self)).
Proof.
  revert self. induction ops as [|op ops IH]; intros self Hs.
  - destruct self; reflexivity.
  - change (adds self (op :: ops)) with (adds (add self (fst op) (snd op)) ops).
    rewrite (add_set_timeline self _ _ Hs).
    rewrite IH by (apply upsert_sorted, Hs).
    reflexivity.
Qed.

Lemma fold_rows_adds (self : Timeline) (data : DataFrame) (st : Timeline) :
  local st = local self ->
  fold_left
    (fun self row =>
       if local self
       then add (add self (start_time_local row) 1) (end_time_local row) (-1)
       else add (add self (start_time row) 1) (end_time row) (-1))
    data st
  = adds st (flat_map (row_ops self) data).
Proof.
  revert st. induction data as [|row data IH]; intros st Hl; [reflexivity|].
  cbn [fold_left flat_map]. rewrite IH.
  - unfold row_ops, start_of, end_of. rewrite <- Hl.
    destruct (local st); reflexivity.
  - destruct (local st) eqn:E; rewrite !local_add; congruence.
Qed.

Lemma count_adds (self : Timeline) (data : DataFrame) :
  count self data = adds (_reset self) (flat_map (row_ops self) data).
Proof. unfold count. apply fold_rows_adds. reflexivity. Qed.

Lemma count_upsert_all (self : Timeline) (data : DataFrame) :
  count self data
  = set_timeline self (upsert_all self (flat_map (row_ops self) data) []).
Proof.
  rewrite count_adds, adds_set_timeline by constructor.
  unfold upsert_all. simpl.
  f_equal.
Qed.

Lemma value_at_upsert (k t d : Z) (l : list entry) :
  StronglySorted key_lt l ->
  value_at k (upsert t d l)
  = if decide (k = t) then Some (default 0 (value_at k l) + d) else value_at k l.
Proof.
  intros Hs. destruct (decide (k = t)) as [->|Hne].
  - apply upsert_value_at, Hs.
  - apply upsert_value_at_ne, Hne.
Qed.

Lemma filed_cons (self : Timeline) (op : timevalue * Z)
  (ops : list (timevalue * Z)) (k : Z) :
  filed self (op :: ops) k
  = if decide (add_instant self (fst op) = k) then op :: filed self ops k
    else filed self ops k.
Proof. unfold filed. rewrite filter_cons. reflexivity. Qed.

Lemma value_at_upsert_all (self : Timeline) (ops : list (timevalue * Z))
  (l : list entry) (k : Z) :
  StronglySorted key_lt l ->
  value_at k (upsert_all self ops l)
  = match filed self ops k with
    | [] => value_at k l
    | _ :: _ => Some (default 0 (value_at k l) + sumZ (map snd (filed self ops k)))
    end.
Proof.
  revert l. induction ops as [|op ops IH]; intros l Hs; [reflexivity|].
  change (upsert_all self (op :: ops) l)
    with (upsert_all self ops (upsert (add_instant self (fst op)) (snd op) l)).
  rewrite IH by (apply upsert_sorted, Hs).
  rewrite value_at_upsert by exact Hs. rewrite filed_cons.
  destruct (decide (add_instant self (fst op) = k)) as [Heq|Hne].
  - destruct (decide (k = add_instant self (fst op))) as [_|Hne]; [|congruence].
    destruct (filed self ops k) as [|o os]; cbn [map sumZ foldr default];
      f_equal; unfold sumZ; simpl; lia.
  - destruct (decide (k = add_instant self (fst op))) as [Heq|_]; [congruence|].
    reflexivity.
Qed.

Lemma value_at_key_gt (t k v : Z) (l : list entry) :
  Forall (key_lt (t, 0)) l -> value_at k l = Some v -> t < k.
Proof.
  induction 1 as [|y r Hy _ IH]; simpl; [discriminate|].
  destruct (Z.eqb_spec (key y) k) as [<-|_]; [|exact IH].
  intros _. exact Hy.
Qed.

(** Two lists in strictly ascending key order that store the same value
    under every instant are equal. *)
Lemma sorted_value_at_ext (l1 l2 : list entry) :
  StronglySorted key_lt l1 -> StronglySorted key_lt l2 ->
  (forall k, value_at k l1 = value_at k l2) -> l1 = l2.
Proof.
  intros H1. revert l2. induction H1 as [|x r1 Hr1 IH Hx]; intros l2 H2 Hext.
  - destruct l2 as [|y r2]; [reflexivity|].
    specialize (Hext (key y)). simpl in Hext. rewrite Z.eqb_refl in Hext.
    discriminate Hext.
  - destruct H2 as [|y r2 Hr2 Hy].
    { specialize (Hext (key x)). simpl in Hext. rewrite Z.eqb_refl in Hext.
      discriminate Hext. }
    assert (Hxy : Forall (key_lt (key x, 0)) r1) by exact Hx.
    assert (Hyx : Forall (key_lt (key y, 0)) r2) by exact Hy.
    assert (Hk : key x = key y).
    { pose proof (Hext (key x)) as Ex. pose proof (Hext (key y)) as Ey.
      simpl in Ex, Ey. rewrite Z.eqb_refl in Ex, Ey.
      destruct (Z.eqb_spec (key y) (key x)) as [E|Hne]; [congruence|].
      destruct (Z.eqb_spec (key x) (key y)) as [E|_]; [congruence|].
      symmetry in Ex. apply (value_at_key_gt _ _ _ _ Hyx) in Ex.
      apply (value_at_key_gt _ _ _ _ Hxy) in Ey. lia. }
    assert (Hv : snd x = snd y).
    { specialize (Hext (key x)). simpl in Hext.
      rewrite Z.eqb_refl, <- Hk, Z.eqb_refl in Hext. congruence. }
    f_equal.
    + destruct x, y. unfold key in Hk. simpl in *. congruence.
    + apply IH; [exact Hr2|]. intros k. specialize (Hext k). simpl in Hext.
      rewrite <- Hk in Hext.
      destruct (Z.eqb_spec (key x) k) as [E|_]; [|exact Hext].
      rewrite <- E. rewrite !value_at_above; [reflexivity| |].
      * rewrite Hk. exact Hy.
      * exact Hx.
Qed.

Lemma upsert_comm (t1 d1 t2 d2 : Z) (l : list entry) :
  StronglySorted key_lt l ->
  upsert t1 d1 (upsert t2 d2 l) = upsert t2 d2 (upsert t1 d1 l).
Proof.
  intros Hs.
  apply sorted_value_at_ext; try (apply upsert_sorted, upsert_sorted, Hs).
  intros k. rewrite !value_at_upsert by (try apply upsert_sorted; exact Hs).
  destruct (decide (k = t1)), (decide (k = t2)); simpl; try reflexivity.
  f_equal. lia.
Qed.

Lemma sum_values_upsert (t d : Z) (l : list entry) :
  sum_values (upsert t d l) = sum_values l + d.
Proof.
  unfold sum_values, sumZ. induction l as [|x r IH]; simpl; [lia|].
  destruct (key x =? t); [|destruct (key x <? t)]; simpl; lia.
Qed.

Lemma length_upsert (t d : Z) (l : list entry) :
  StronglySorted key_lt l ->
  length (upsert t d l)
  = match value_at t l with Some _ => length l | None => S (length l) end.
Proof.
  induction 1 as [|x r Hr IH Hx]; simpl; [reflexivity|].
  destruct (Z.eqb_spec (key x) t) as [Heq|Hne]; [reflexivity|].
  destruct (Z.ltb_spec (key x) t) as [Hlt|Hge]; simpl.
  - rewrite IH. destruct (value_at t r); reflexivity.
  - rewrite value_at_above; [reflexivity|].
    eapply Forall_impl; [exact Hx|]. unfold key_lt. simpl. intros y Hy. lia.
Qed.



Lemma sum_values_upsert_all (self : Timeline) (ops : list (timevalue * Z))
  (l : list entry) :
  sum_values (upsert_all self ops l) = sum_values l + sumZ (map snd ops).
Proof.
  revert l. induction ops as [|op ops IH]; intros l.
  - unfold sumZ. simpl. lia.
  - change (upsert_all self (op :: ops) l)
      with (upsert_all self ops (upsert (add_instant self (fst op)) (snd op) l)).
    rewrite IH, sum_values_upsert. unfold sumZ. simpl. lia.
Qed.

Lemma value_at_elem (k : Z) (l : list entry) :
  is_Some (value_at k l) <-> k ∈ map key l.
Proof.
  induction l as [|x r IH]; simpl.
  - split; [intros [v Hv]; discriminate Hv | intros H; inversion H].
  - destruct (Z.eqb_spec (key x) k) as [Heq|Hne].
    + split; [intros _; rewrite Heq; left | intros _; eexists; reflexivity].
    + rewrite IH. split; [intros H; right; exact H|].
      intros H. inversion H; subst; [contradiction | assumption].
Qed.

Lemma sumZ_row_ops (self : Timeline) (data : DataFrame) :
  sumZ (map snd (flat_map (row_ops self) data)) = 0.
Proof.
  unfold sumZ. induction data as [|row data IH]; [reflexivity|].
  cbn [flat_map row_ops app map snd foldr]. rewrite IH. reflexivity.
Qed.


Lemma row_step_comm (self : Timeline) (x y : record) (l : list entry) :
  StronglySorted key_lt l ->
  upsert_all self (row_ops self x) (upsert_all self (row_ops self y) l)
  = upsert_all self (row_ops self y) (upsert_all self (row_ops self x) l).
Proof.
  intros Hs.
  apply sorted_value_at_ext; try (apply upsert_all_sorted, upsert_all_sorted, Hs).
  intros k. unfold upsert_all, row_ops. cbn [fold_left fst snd].
  rewrite !value_at_upsert by (repeat apply upsert_sorted; exact Hs).
  repeat (destruct (decide _)); simpl; try reflexivity; f_equal; lia.
Qed.

Lemma upsert_all_app (self : Timeline) (ops1 ops2 : list (timevalue * Z))
  (l : list entry) :
  upsert_all self (ops1 ++ ops2) l = upsert_all self ops2 (upsert_all self ops1 l).
Proof. unfold upsert_all. apply fold_left_app. Qed.

Lemma upsert_all_rows_perm (self : Timeline) (data data' : DataFrame) :
  Permutation data data' ->
  forall l, StronglySorted key_lt l ->
  upsert_all self (flat_map (row_ops self) data) l
  = upsert_all self (flat_map (row_ops self) data') l.
Proof.
  induction 1 as [|x d d' _ IH|x y d|d1 d2 d3 _ IH1 _ IH2]; intros l Hs.
  - reflexivity.
  - cbn [flat_map]. rewrite !upsert_all_app. apply IH, upsert_all_sorted, Hs.
  - cbn [flat_map]. rewrite !upsert_all_app. f_equal. apply row_step_comm, Hs.
  - rewrite IH1 by exact Hs. apply IH2, Hs.
Qed.

(** X1.  After a reset, what is stored under an instant is the sum of the
    deltas of the [add] calls filed under it, and an instant under which no
    call was filed is not stored; [count] stores, per instant, the starts
    minus the ends clamped to it. *)
Theorem timeline_accumulates (self : Timeline) (ops : list (timevalue * Z))
  (data : DataFrame) (k : Z) :
  value_at k (timeline (adds (_reset self) ops))
  = match filed self ops k with
    | [] => None
    | _ :: _ => Some (sumZ (map snd (filed self ops k)))
    end
  /\ value_at k (timeline (count self data))
     = match filed self (flat_map (row_ops self) data) k with
       | [] => None
       | _ :: _ => Some (sumZ (map snd (filed self (flat_map (row_ops self) data) k)))
       end.
Proof.
  assert (H : forall ops,
             value_at k (timeline (adds (_reset self) ops))
             = match filed self ops k with
               | [] => None
               | _ :: _ => Some (sumZ (map snd (filed self ops k)))
               end).
  { intros os. rewrite adds_set_timeline by constructor.
    change (timeline (set_timeline (_reset self) ?l)) with l.
    change (upsert_all (_reset self) os (timeline (_reset self)))
      with (upsert_all self os []).
    rewrite value_at_upsert_all by constructor. reflexivity. }
  split; [apply H|]. rewrite count_adds. apply H.
Qed.

(** X2.  Two [add] calls commute: the instance is the same whichever is
    made first. *)
Theorem add_commutes (self : Timeline) (time1 time2 : timevalue) (d1 d2 : Z) :
  reachable self ->
  add (add self time1 d1) time2 d2 = add (add self time2 d2) time1 d1.
Proof.
  intros Hr. apply reachable_wf in Hr. pose proof (wf_sorted _ Hr) as Hs.
  rewrite (add_set_timeline self time1 d1 Hs), (add_set_timeline self time2 d2 Hs).
  rewrite !add_set_timeline by (apply upsert_sorted, Hs).
  rewrite !add_instant_set_timeline. cbn [timeline set_timeline].
  rewrite upsert_comm by exact Hs. reflexivity.
Qed.

Lemma add_commutes_witness :
  reachable (count (bare 0 10) two_intervals)
  /\ add (add (count (bare 0 10) two_intervals) (At (Unix 5)) 1) NaT (-1)
     = add (add (count (bare 0 10) two_intervals) NaT (-1)) (At (Unix 5)) 1.
Proof.
  split; [apply reach_count, bare_reachable|].
  apply (add_commutes (count (bare 0 10) two_intervals) (At (Unix 5)) NaT 1 (-1)
           (reach_count _ _ (bare_reachable 0 10))).
Defined.

(** X3.  [count] does not depend on the order of the rows of [data]. *)
Theorem count_row_order (self : Timeline) (data data' : DataFrame) :
  Permutation data data' -> count self data = count self data'.
Proof.
  intros Hp. rewrite !count_upsert_all.
  rewrite (upsert_all_rows_perm self data data' Hp) by constructor.
  reflexivity.
Qed.

Lemma count_row_order_witness :
  Permutation [interval 0 5; interval 2 7] [interval 2 7; interval 0 5]
  /\ count (bare 0 10) [interval 0 5; interval 2 7]
     = count (bare 0 10) [interval 2 7; interval 0 5].
Proof.
  split; [apply perm_swap|].
  apply (count_row_order (bare 0 10)). apply perm_swap.
Defined.

(** X4.  The deltas stored by [count] cancel: every row adds [+1] and
    [-1], so the stored deltas sum to zero. *)
Theorem count_deltas_cancel (self : Timeline) (data : DataFrame) :
  sum_values (timeline (count self data)) = 0.
Proof.
  rewrite count_upsert_all. cbn [timeline set_timeline].
  rewrite sum_values_upsert_all, sumZ_row_ops. reflexivity.
Qed.

(** X5.  [add] never removes a stored instant (not even when the delta
    under it becomes zero): afterwards the stored instants are the earlier
    ones and the one the call is filed under, and the timeline grows by one
    entry exactly when that instant is new. *)
Theorem add_keeps_instants (self : Timeline) (time : timevalue) (delta : Z) :
  reachable self ->
  (forall k, k ∈ instants (add self time delta)
             <-> k = add_instant self time \/ k ∈ instants self)
  /\ length (timeline (add self time delta))
     = if decide (add_instant self time ∈ instants self)
       then length (timeline self) else S (length (timeline self)).
Proof.
  intros Hr. apply reachable_wf in Hr. pose proof (wf_sorted _ Hr) as Hs.
  rewrite (add_set_timeline self time delta Hs). unfold instants.
  cbn [timeline set_timeline]. split.
  - intros k. rewrite <- !value_at_elem, value_at_upsert by exact Hs.
    destruct (decide (k = add_instant self time)) as [->|Hne].
    + split; [intros _; left; reflexivity | intros _; eexists; reflexivity].
    + split; [intros H; right; exact H | intros [H|H]; [contradiction | exact H]].
  - rewrite length_upsert by exact Hs.
    destruct (decide _) as [Hin|Hnot].
    + apply value_at_elem in Hin. destruct Hin as [v ->]. reflexivity.
    + destruct (value_at (add_instant self time) (timeline self)) eqn:E; [|reflexivity].
      exfalso. apply Hnot, value_at_elem. eexists. exact E.
Qed.

Lemma add_keeps_instants_witness :
  reachable (add (bare 0 10) (At (Unix 4)) 1)
  /\ instants (add (add (bare 0 10) (At (Unix 4)) 1) (At (Unix 4)) (-1)) = [4]
  /\ length (timeline (add (add (bare 0 10) (At (Unix 4)) 1) (At (Unix 4)) (-1)))
     = 1%nat.
Proof.
  split; [apply reach_add, bare_reachable|]. split; [reflexivity|].
  apply (add_keeps_instants (add (bare 0 10) (At (Unix 4)) 1) (At (Unix 4)) (-1)
           (reach_add _ _ _ (bare_reachable 0 10))).
Defined.


(** ** The rows of the partition *)

Lemma rows_from_cons2 (c : Z) (a b : entry) (l : list entry) :
  rows_from c (a :: b :: l)
  = {| row_start := fst a; row_end := fst b; row_delta := fst b - fst a;
       row_count := c + snd a;
       row_start_date := mkTimestamp (fst a);
       row_end_date := mkTimestamp (fst b) |} :: rows_from (c + snd a) (b :: l).
Proof. reflexivity. Qed.

Lemma rows_from_lookup (c : Z) (l : list entry) (i : nat) (r : PartitionRow) :
  rows_from c l !! i = Some r ->
  exists a b,
    l !! i = Some a /\ l !! S i = Some b
    /\ r = {| row_start := fst a; row_end := fst b; row_delta := fst b - fst a;
              row_count := c + sumZ (map snd (take (S i) l));
              row_start_date := mkTimestamp (fst a);
              row_end_date := mkTimestamp (fst b) |}.
Proof.
  revert c i. induction l as [|a l IH]; intros c i; [discriminate|].
  destruct l as [|b l]; [discriminate|].
  rewrite rows_from_cons2. destruct i as [|i].
  - intros H. cbn [lookup list_lookup] in H. injection H as <-.
    exists a, b. split; [reflexivity|]. split; [reflexivity|].
    unfold sumZ. simpl. f_equal. lia.
  - intros H. cbn [lookup list_lookup] in H.
    apply IH in H. destruct H as [a' [b' [Ha [Hb ->]]]].
    exists a', b'. split; [exact Ha|]. split; [exact Hb|].
    f_equal. change (take (S (S i)) (a :: b :: l)) with (a :: take (S i) (b :: l)).
    unfold sumZ. cbn [map foldr]. fold (sumZ (map snd (take (S i) (b :: l)))). lia.
Qed.

Lemma rows_from_shape (c : Z) (l : list entry) :
  Forall (fun r => row_start r ∈ map key l /\ row_end r ∈ map key l
                   /\ row_delta r = row_end r - row_start r
                   /\ row_start_date r = mkTimestamp (row_start r)
                   /\ row_end_date r = mkTimestamp (row_end r))
    (rows_from c l).
Proof.
  revert c. induction l as [|a l IH]; intros c; [constructor|].
  destruct l as [|b l]; [constructor|].
  rewrite rows_from_cons2. constructor.
  - cbn [row_start row_end row_delta row_start_date row_end_date map].
    unfold key. repeat split; [left | right; left].
  - eapply Forall_impl; [apply IH|]. intros r (H1 & H2 & H3).
    split; [right; exact H1|]. split; [right; exact H2 | exact H3].
Qed.

Lemma rows_from_window (s e c : Z) (l : list entry) :
  StronglySorted key_lt l ->
  Forall (fun x => key x <= e /\ (key x = e \/ s <= key x)) l ->
  Forall (fun r => s <= row_start r /\ row_start r < row_end r /\ row_end r <= e)
    (rows_from c l).
Proof.
  intros Hs. revert c. induction Hs as [|a l Hl IH Ha]; intros c Hk; [constructor|].
  destruct l as [|b l]; [constructor|].
  rewrite rows_from_cons2.
  inversion Hk as [|? ? [Ha1 Ha2] Hk']; subst.
  inversion Hk' as [|? ? [Hb1 _] _]; subst.
  inversion Ha as [|? ? Hab _]; subst. unfold key_lt, key in *.
  constructor; [simpl; lia | apply IH, Hk'].
Qed.

Lemma last_default (a b x : entry) (l : list entry) :
  List.last (x :: l) a = List.last (x :: l) b.
Proof.
  revert x. induction l as [|y l IH]; intros x; [reflexivity|].
  change (List.last (y :: l) a = List.last (y :: l) b). apply IH.
Qed.

Lemma last_cons (a b : entry) (l : list entry) :
  List.last (b :: l) a = List.last l b.
Proof.
  destruct l as [|x l]; [reflexivity|].
  change (List.last (x :: l) a = List.last (x :: l) b). apply last_default.
Qed.

Lemma rows_from_telescope (c : Z) (a : entry) (l : list entry) :
  sumZ (map row_delta (rows_from c (a :: l))) = key (List.last l a) - key a.
Proof.
  revert c a. induction l as [|b l IH]; intros c a.
  - unfold sumZ. simpl. lia.
  - rewrite rows_from_cons2. unfold sumZ in *. cbn [map foldr row_delta].
    rewrite IH. unfold key.
    rewrite (last_cons a b l). lia.
Qed.

Lemma last_elem (a : entry) (l : list entry) : List.last l a ∈ a :: l.
Proof.
  revert a. induction l as [|b l IH]; intros a; [left|].
  right. rewrite (last_cons a b l). apply IH.
Qed.

Lemma fold_left_max_spec (r : list Z) (x : Z) :
  (fold_left Z.max r x = x \/ fold_left Z.max r x ∈ r)
  /\ x <= fold_left Z.max r x
  /\ Forall (fun w => w <= fold_left Z.max r x) r.
Proof.
  revert x. induction r as [|y r IH]; intros x.
  - simpl. split; [left; reflexivity|]. split; [lia | constructor].
  - cbn [fold_left]. destruct (IH (Z.max x y)) as (H1 & H2 & H3).
    split; [|split; [lia|constructor; [lia | exact H3]]].
    destruct H1 as [H1|H1]; [|right; right; exact H1].
    destruct (Z.max_spec x y) as [[_ E]|[_ E]]; rewrite E in *.
    + right. rewrite H1. left.
    + left. exact H1.
Qed.

Lemma py_max_spec (l : list Z) :
  l <> [] ->
  exists m, py_max l = Ok m /\ m ∈ l /\ Forall (fun w => w <= m) l.
Proof.
  destruct l as [|x r]; [congruence|]. intros _.
  exists (fold_left Z.max r x). destruct (fold_left_max_spec r x) as (H1 & H2 & H3).
  split; [reflexivity|]. split.
  - destruct H1 as [->|H1]; [left | right; exact H1].
  - constructor; [exact H2 | exact H3].
Qed.

Lemma rows_window (self : Timeline) :
  wf self ->
  Forall (fun r => start_int self <= row_start r /\ row_start r < row_end r
                   /\ row_end r <= end_int self
                   /\ row_delta r = row_end r - row_start r)
    (rows_from 0 (timeline self)).
Proof.
  intros Hwf.
  pose proof (rows_from_window (start_int self) (end_int self) 0 (timeline self)
                (wf_sorted _ Hwf) (wf_keys _ Hwf)) as H1.
  pose proof (rows_from_shape 0 (timeline self)) as H2.
  rewrite Forall_forall in H1, H2. apply Forall_forall. intros r Hr.
  specialize (H1 r Hr). specialize (H2 r Hr). tauto.
Qed.

Lemma rows_total_width (self : Timeline) :
  wf self ->
  sumZ (map row_delta (rows_from 0 (timeline self)))
  <= Z.max 0 (end_int self - start_int self).
Proof.
  intros Hwf. pose proof (rows_window self Hwf) as Hrows.
  destruct (timeline self) as [|a l] eqn:E; [unfold sumZ; simpl; lia|].
  rewrite rows_from_telescope.
  destruct l as [|b l]; [simpl; lia|].
  rewrite rows_from_cons2 in Hrows. inversion Hrows as [|? ? [Hs _] _]; subst.
  pose proof (wf_keys _ Hwf) as Hk. rewrite E in Hk.
  rewrite Forall_forall in Hk.
  destruct (Hk _ (last_elem a (b :: l))) as [Hlast _].
  simpl in Hs. unfold key in *. lia.
Qed.

(** The labels of the rows [partition] returns are those [_int2ts] built. *)
Lemma partition_labels (self : Timeline) (rows : list PartitionRow) :
  partition self = Ok rows ->
  Forall (fun r => _int2ts (row_start r) = Ok (row_start_date r)
                   /\ _int2ts (row_end r) = Ok (row_end_date r)) rows.
Proof.
  rewrite partition_eq.
  destruct (forallb in_Timestamp_range (rendered (timeline self))) eqn:E;
    [|discriminate].
  intros H. injection H as <-.
  apply (proj1 (forallb_representable _)) in E.
  pose proof (rows_from_shape 0 (timeline self)) as Hshape.
  rewrite Forall_forall in Hshape. rewrite Forall_forall in E.
  apply Forall_forall. intros r Hr.
  destruct (Hshape r Hr) as (H1 & H2 & _ & -> & ->).
  assert (Hren : rendered (timeline self) = map key (timeline self)).
  { destruct (timeline self) as [|a [|b l]]; [inversion Hr | inversion Hr|].
    reflexivity. }
  rewrite Hren in E. unfold _int2ts.
  rewrite (proj2 (in_Timestamp_range_spec _) (E _ H1)).
  rewrite (proj2 (in_Timestamp_range_spec _) (E _ H2)). split; reflexivity.
Qed.

(** X7.  [partition()] returns exactly when at most one instant is stored
    or every stored instant is in the range of [pandas.Timestamp].  Row [i]
    of what it returns spans the stored instants [i] and [i + 1]: its
    count is the sum of the deltas stored at the instants [0..i], its width
    the difference of the two instants, and its labels are the
    [_int2ts] of the two. *)
Theorem partition_row_at (self : Timeline) :
  ((exists rows, partition self = Ok rows)
   <-> (length (timeline self) <= 1)%nat \/ Forall representable (instants self))
  /\ (forall rows, partition self = Ok rows ->
      Forall (fun r => _int2ts (row_start r) = Ok (row_start_date r)
                       /\ _int2ts (row_end r) = Ok (row_end_date r)) rows
      /\ forall (i : nat) (r : PartitionRow),
          rows !! i = Some r
          <-> exists a b,
                timeline self !! i = Some a /\ timeline self !! S i = Some b
                /\ r = {| row_start := fst a; row_end := fst b;
                          row_delta := fst b - fst a;
                          row_count := sumZ (map snd (take (S i) (timeline self)));
                          row_start_date := mkTimestamp (fst a);
                          row_end_date := mkTimestamp (fst b) |}).
Proof.
  split.
  - split.
    + intros [rows Hp].
      destruct (le_lt_dec (length (timeline self)) 1) as [Hlen|Hlen];
        [left; exact Hlen|]. right.
      destruct (forallb in_Timestamp_range (instants self)) eqn:E.
      * apply forallb_representable, E.
      * assert (H : ~ Forall representable (instants self)).
        { intros H. apply forallb_representable in H. congruence. }
        rewrite (partition_out_of_range self Hlen H) in Hp. discriminate Hp.
    + intros [Hlen|Hrep].
      * exists []. exact (partition_short self Hlen).
      * exists (rows_from 0 (timeline self)).
        exact (partition_representable self Hrep).
  - intros rows Hp. split; [exact (partition_labels self rows Hp)|].
    apply partition_Ok in Hp. subst rows. intros i r. split.
    + intros H. apply rows_from_lookup in H. destruct H as [a [b [Ha [Hb ->]]]].
      exists a, b. split; [exact Ha|]. split; [exact Hb|]. f_equal.
    + intros [a [b [Ha [Hb ->]]]].
      assert (Hlt : (i < length (rows_from 0 (timeline self)))%nat).
      { rewrite rows_from_length. apply lookup_lt_Some in Hb. unfold entry in *. lia. }
      apply lookup_lt_is_Some in Hlt. destruct Hlt as [r' Hr']. rewrite Hr'.
      apply rows_from_lookup in Hr'. destruct Hr' as [a' [b' [Ha' [Hb' ->]]]].
      rewrite Ha in Ha'. rewrite Hb in Hb'.
      injection Ha' as <-. injection Hb' as <-. f_equal.
Qed.

Lemma partition_row_at_witness :
  partition (add (add (bare 0 10) (At (Unix 2)) 5) (At (Unix 7)) (-5))
  = Ok [ {| row_start := 2; row_end := 7; row_delta := 5; row_count := 5;
            row_start_date := mkTimestamp 2; row_end_date := mkTimestamp 7 |} ]
  /\ _int2ts 2 = Ok (mkTimestamp 2).
Proof.
  assert (Hp : partition (add (add (bare 0 10) (At (Unix 2)) 5) (At (Unix 7)) (-5))
               = Ok [ {| row_start := 2; row_end := 7; row_delta := 5; row_count := 5;
                         row_start_date := mkTimestamp 2;
                         row_end_date := mkTimestamp 7 |} ]) by reflexivity.
  split; [exact Hp|].
  destruct (partition_row_at (add (add (bare 0 10) (At (Unix 2)) 5) (At (Unix 7)) (-5)))
    as [_ Hrows].
  destruct (Hrows _ Hp) as [Hlabels _].
  inversion Hlabels as [|r rs [Hs _] _]. exact Hs.
Defined.



(** X9.  With at least two stored instants, all in the range of
    [pandas.Timestamp], on a reachable instance, [norm()] returns the
    largest width of the partition: it is the width of some row, no row is
    wider, and it is positive and at most the length of the window. *)
Theorem norm_is_maximum (self : Timeline) :
  reachable self ->
  (1 < length (timeline self))%nat ->
  Forall representable (instants self) ->
  exists m widths, norm self = Ok m
    /\ delta_x self = Ok widths
    /\ m ∈ widths
    /\ Forall (fun w => w <= m) widths
    /\ 0 < m <= end_int self - start_int self.
Proof.
  intros Hr Hlen Hrep. apply reachable_wf in Hr.
  pose proof (partition_representable self Hrep) as Hp.
  pose proof (delta_x_Ok self _ Hp) as Hdx.
  set (rows := rows_from 0 (timeline self)) in *.
  assert (Hne : map row_delta rows <> []).
  { intros E. apply (f_equal length) in E.
    rewrite length_map in E. unfold rows in E.
    rewrite rows_from_length in E. simpl in E. lia. }
  destruct (py_max_spec _ Hne) as [m (Hm & Hin & Hall)].
  exists m, (map row_delta rows).
  split; [unfold norm; rewrite Hp; cbn; rewrite Hdx; exact Hm|].
  split; [exact Hdx|]. split; [exact Hin|]. split; [exact Hall|].
  apply list_elem_of_fmap in Hin. destruct Hin as [r [-> Hin]].
  pose proof (rows_window self Hr) as Hw. rewrite Forall_forall in Hw.
  specialize (Hw r Hin). lia.
Qed.

Lemma norm_is_maximum_witness :
  reachable (count (bare 0 10) two_intervals)
  /\ (1 < length (timeline (count (bare 0 10) two_intervals)))%nat
  /\ Forall representable (instants (count (bare 0 10) two_intervals))
  /\ exists m, norm (count (bare 0 10) two_intervals) = Ok m /\ 0 < m <= 10 - 0.
Proof.
  assert (Hlen : (1 < length (timeline (count (bare 0 10) two_intervals)))%nat).
  { vm_compute. lia. }
  split; [apply reach_count, bare_reachable|]. split; [exact Hlen|].
  split; [exact two_intervals_representable|].
  destruct (norm_is_maximum (count (bare 0 10) two_intervals)
              (reach_count _ _ (bare_reachable 0 10)) Hlen
              two_intervals_representable)
    as [m [widths (Hm & _ & _ & _ & Hb)]].
  exists m. split; [exact Hm | exact Hb].
Defined.

(** ** Occupancy *)

Lemma cumulative_cons (k : Z) (x : entry) (l : list entry) :
  cumulative k (x :: l)
  = (if decide (key x <= k) then snd x else 0) + cumulative k l.
Proof.
  unfold cumulative, sumZ. rewrite filter_cons.
  destruct (decide (key x <= k)); simpl; lia.
Qed.

Lemma cumulative_above (k : Z) (l : list entry) :
  Forall (fun y => k < key y) l -> cumulative k l = 0.
Proof.
  induction 1 as [|y r Hy _ IH]; [reflexivity|].
  rewrite cumulative_cons, IH. destruct (decide (key y <= k)); lia.
Qed.

Lemma cumulative_upsert (k t d : Z) (l : list entry) :
  cumulative k (upsert t d l)
  = cumulative k l + (if decide (t <= k) then d else 0).
Proof.
  induction l as [|x r IH]; cbn [upsert].
  - rewrite cumulative_cons. unfold key. simpl.
    destruct (decide (t <= k)); unfold cumulative, sumZ; simpl; lia.
  - destruct (Z.eqb_spec (key x) t) as [Heq|Hne]; [|destruct (Z.ltb_spec (key x) t)].
    + rewrite !cumulative_cons. unfold key in *. simpl. rewrite Heq.
      destruct (decide (t <= k)); lia.
    + rewrite !cumulative_cons, IH. lia.
    + rewrite !cumulative_cons. unfold key. simpl.
      destruct (decide (t <= k)); lia.
Qed.

Lemma cumulative_upsert_all (self : Timeline) (ops : list (timevalue * Z))
  (l : list entry) (k : Z) :
  cumulative k (upsert_all self ops l)
  = cumulative k l
    + sumZ (map snd (filter (fun op => add_instant self (fst op) <= k) ops)).
Proof.
  revert l. induction ops as [|op ops IH]; intros l.
  - unfold sumZ. simpl. lia.
  - change (upsert_all self (op :: ops) l)
      with (upsert_all self ops (upsert (add_instant self (fst op)) (snd op) l)).
    rewrite IH, cumulative_upsert, filter_cons.
    destruct (decide (add_instant self (fst op) <= k)); unfold sumZ; simpl; lia.
Qed.

Lemma rows_from_cumulative (c : Z) (l : list entry) :
  StronglySorted key_lt l ->
  Forall (fun r => row_count r = c + cumulative (row_start r) l) (rows_from c l).
Proof.
  intros Hs. revert c. induction Hs as [|a l Hl IH Ha]; intros c; [constructor|].
  destruct l as [|b l]; [constructor|].
  rewrite rows_from_cons2. constructor.
  - cbn [row_count row_start]. rewrite cumulative_cons, cumulative_above.
    + unfold key. destruct (decide (fst a <= fst a)); lia.
    + exact Ha.
  - pose proof (rows_from_shape (c + snd a) (b :: l)) as Hshape.
    specialize (IH (c + snd a)).
    rewrite Forall_forall in IH, Hshape. apply Forall_forall. intros r Hr.
    rewrite (IH r Hr), (cumulative_cons _ a).
    destruct (Hshape r Hr) as [Hin _].
    apply list_elem_of_fmap in Hin. destruct Hin as [x [Hx Hin]].
    rewrite Forall_forall in Ha. specialize (Ha x Hin). unfold key_lt in Ha.
    destruct (decide (key a <= row_start r)); lia.
Qed.

Lemma row_ops_at_or_before (self : Timeline) (data : DataFrame) (k : Z) :
  sumZ (map snd (filter (fun op => add_instant self (fst op) <= k)
                   (flat_map (row_ops self) data)))
  = Z.of_nat (length (filter (fun row => add_instant self (start_of self row) <= k) data))
    - Z.of_nat (length (filter (fun row => add_instant self (end_of self row) <= k) data)).
Proof.
  unfold DataFrame in *.
  induction data as [|row data IH]; [reflexivity|].
  cbn [flat_map row_ops app]. rewrite !filter_cons. cbn [fst].
  destruct (decide (add_instant self (start_of self row) <= k)),
           (decide (add_instant self (end_of self row) <= k));
    unfold sumZ in *; cbn [map foldr snd length]; rewrite IH; lia.
Qed.

Lemma present_ordered (self : Timeline) (data : DataFrame) (k : Z) :
  Forall (ordered self) data ->
  Z.of_nat (length (filter (fun row => add_instant self (start_of self row) <= k) data))
  - Z.of_nat (length (filter (fun row => add_instant self (end_of self row) <= k) data))
  = Z.of_nat (length (present self data k)).
Proof.
  unfold present, DataFrame in *.
  induction 1 as [|row data Hrow _ IH]; [reflexivity|].
  rewrite !filter_cons. unfold ordered in Hrow.
  destruct (decide (add_instant self (start_of self row) <= k)),
           (decide (add_instant self (end_of self row) <= k)),
           (decide (add_instant self (start_of self row) <= k
                    /\ k < add_instant self (end_of self row)));
    cbn [length]; lia.
Qed.

Lemma count_row_counts (self : Timeline) (data : DataFrame) :
  Forall (fun r =>
            row_count r
            = Z.of_nat (length (filter (fun row =>
                  add_instant self (start_of self row) <= row_start r) data))
              - Z.of_nat (length (filter (fun row =>
                  add_instant self (end_of self row) <= row_start r) data)))
    (rows_from 0 (timeline (count self data))).
Proof.
  rewrite count_upsert_all. cbn [timeline set_timeline].
  eapply Forall_impl.
  - apply rows_from_cumulative, upsert_all_sorted. constructor.
  - intros r Hr. cbn beta in Hr.
    rewrite Hr, cumulative_upsert_all, row_ops_at_or_before.
    unfold cumulative, sumZ. simpl. lia.
Qed.

Lemma length_filter_le {A} (P : A -> Prop) `{forall x, Decision (P x)}
  (l : list A) : (length (filter P l) <= length l)%nat.
Proof.
  induction l as [|x l IH]; [reflexivity|].
  rewrite filter_cons. destruct (decide (P x)); simpl; lia.
Qed.

Lemma count_row_counts_ordered (self : Timeline) (data : DataFrame) :
  Forall (ordered self) data ->
  Forall (fun r => row_count r = Z.of_nat (length (present self data (row_start r)))
                   /\ 0 <= row_count r <= Z.of_nat (length data))
    (rows_from 0 (timeline (count self data))).
Proof.
  intros Hord. eapply Forall_impl; [apply count_row_counts|].
  intros r Hr. cbn beta in Hr. rewrite present_ordered in Hr by exact Hord.
  split; [exact Hr|]. rewrite Hr.
  pose proof (length_filter_le
                (fun row => add_instant self (start_of self row) <= row_start r
                            /\ row_start r < add_instant self (end_of self row))
                data) as Hle.
  unfold present, DataFrame in *. lia.
Qed.

(** X10.  After [count], the count of every row [partition()] returns is
    the number of records that start at or before the row's start minus
    the number that end at or before it (both clamped). *)
Theorem row_count_starts_minus_ends (self : Timeline) (data : DataFrame) :
  forall rows, partition (count self data) = Ok rows ->
  Forall (fun r =>
            row_count r
            = Z.of_nat (length (filter (fun row =>
                  add_instant self (start_of self row) <= row_start r) data))
              - Z.of_nat (length (filter (fun row =>
                  add_instant self (end_of self row) <= row_start r) data)))
    rows.
Proof.
  intros rows Hp. apply partition_Ok in Hp. subst rows.
  rewrite count_upsert_all. cbn [timeline set_timeline].
  eapply Forall_impl.
  - apply rows_from_cumulative, upsert_all_sorted. constructor.
  - intros r Hr. cbn beta in Hr.
    rewrite Hr, cumulative_upsert_all, row_ops_at_or_before.
    unfold cumulative, sumZ. simpl. lia.
Qed.

Lemma two_intervals_partition :
  partition (count (bare 0 10) two_intervals)
  = Ok (rows_from 0 (timeline (count (bare 0 10) two_intervals))).
Proof. reflexivity. Defined.

Lemma row_count_starts_minus_ends_witness :
  partition (count (bare 0 10) two_intervals)
  = Ok (rows_from 0 (timeline (count (bare 0 10) two_intervals)))
  /\ Forall (fun r =>
               row_count r
               = Z.of_nat (length (filter (fun row =>
                     add_instant (bare 0 10) (start_of (bare 0 10) row)
                     <= row_start r) two_intervals))
                 - Z.of_nat (length (filter (fun row =>
                     add_instant (bare 0 10) (end_of (bare 0 10) row)
                     <= row_start r) two_intervals)))
       (rows_from 0 (timeline (count (bare 0 10) two_intervals))).
Proof.
  split; [exact two_intervals_partition|].
  exact (row_count_starts_minus_ends (bare 0 10) two_intervals _
           two_intervals_partition).
Defined.

(** X11.  When no record ends before it starts (after clamping), the count
    of each row [partition()] returns after [count] is the number of
    records present at the row's start, so it is never negative and never
    more than the number of records. *)
Theorem row_count_is_presence (self : Timeline) (data : DataFrame) :
  Forall (ordered self) data ->
  forall rows, partition (count self data) = Ok rows ->
  Forall (fun r => row_count r = Z.of_nat (length (present self data (row_start r)))
                   /\ 0 <= row_count r <= Z.of_nat (length data))
    rows.
Proof.
  intros Hord rows Hp. apply partition_Ok in Hp. subst rows.
  eapply Forall_impl; [apply count_row_counts|].
  intros r Hr. cbn beta in Hr. rewrite present_ordered in Hr by exact Hord.
  split; [exact Hr|]. rewrite Hr.
  pose proof (length_filter_le
                (fun row => add_instant self (start_of self row) <= row_start r
                            /\ row_start r < add_instant self (end_of self row))
                data) as Hle.
  unfold present, DataFrame in *. lia.
Qed.

Lemma two_intervals_ordered : Forall (ordered (bare 0 10)) two_intervals.
Proof.
  repeat constructor; intros H; discriminate H.
Defined.

Lemma row_count_is_presence_witness :
  Forall (ordered (bare 0 10)) two_intervals
  /\ partition (count (bare 0 10) two_intervals)
     = Ok (rows_from 0 (timeline (count (bare 0 10) two_intervals)))
  /\ Forall (fun r => row_count r
                      = Z.of_nat (length (present (bare 0 10) two_intervals (row_start r)))
                      /\ 0 <= row_count r <= Z.of_nat (length two_intervals))
       (rows_from 0 (timeline (count (bare 0 10) two_intervals))).
Proof.
  split; [exact two_intervals_ordered|].
  split; [exact two_intervals_partition|].
  exact (row_count_is_presence (bare 0 10) two_intervals two_intervals_ordered _
           two_intervals_partition).
Defined.

Lemma riemann_bounds (n : Z) (rows : list PartitionRow) :
  Forall (fun r => 0 <= row_count r <= n /\ 0 < row_delta r) rows ->
  0 <= riemann_sum rows <= n * sumZ (map row_delta rows).
Proof.
  unfold riemann_sum, sumZ. induction 1 as [|r rows [Hc Hd] _ IH]; simpl; [lia|].
  nia.
Qed.

Lemma Qdiv_bounds (sigma d n : Z) :
  0 < d -> 0 <= sigma <= n * d ->
  (0 <= inject_Z sigma / inject_Z d)%Q
  /\ (inject_Z sigma / inject_Z d <= inject_Z n)%Q.
Proof.
  intros Hd Hs. destruct d as [|p|p]; try lia.
  unfold Qdiv, Qmult, Qinv, Qle, inject_Z. simpl. split; nia.
Qed.

Lemma count_window (self : Timeline) (data : DataFrame) :
  start_int (count self data) = start_int self
  /\ end_int (count self data) = end_int self.
Proof. rewrite count_upsert_all. split; reflexivity. Qed.

(** X12.  On a reachable instance whose window bounds are in the range of
    [pandas.Timestamp], when no record ends before it starts and the
    number of records times the window length fits in 64 bits, the
    average computed after [count] lies between 0 and the number of
    records. *)
Theorem average_bounds (self : Timeline) (data : DataFrame) :
  reachable self ->
  Forall (ordered self) data ->
  representable (start_int self) -> representable (end_int self) ->
  Z.of_nat (length data) * (end_int self - start_int self) < 2 ^ 63 ->
  exists q, average (count self data) = Some (Ok (Number q))
    /\ (0 <= q)%Q /\ (q <= inject_Z (Z.of_nat (length data)))%Q.
Proof.
  intros Hr Hord Hrs Hre Hfit.
  assert (Hwf : wf (count self data)) by apply wf_count, reachable_wf, Hr.
  destruct (count_window self data) as [Es Ee].
  destruct (le_lt_dec (length (timeline (count self data))) 1) as [Hlen|Hlen].
  { exists 0%Q. split; [apply average_short, Hlen|].
    unfold Qle. simpl. lia. }
  pose proof (wf_two_instants _ Hwf Hlen) as Hpos.
  assert (Hrep : Forall representable (instants (count self data))).
  { apply wf_representable; [exact Hwf | rewrite Es; exact Hrs | rewrite Ee; exact Hre]. }
  pose proof (partition_representable _ Hrep) as Hp.
  pose proof (rows_total_width _ Hwf) as Hw.
  pose proof (count_row_counts_ordered self data Hord) as H1.
  pose proof (rows_window _ Hwf) as H2.
  set (rows := rows_from 0 (timeline (count self data))) in *.
  set (n := Z.of_nat (length data)) in *.
  rewrite Es, Ee in *.
  assert (Hrows : Forall (fun r => 0 <= row_count r <= n /\ 0 < row_delta r) rows).
  { rewrite Forall_forall in H1. rewrite Forall_forall in H2.
    apply Forall_forall. intros r Hin.
    specialize (H1 r Hin). specialize (H2 r Hin). lia. }
  pose proof (riemann_bounds n rows Hrows) as Hb.
  assert (Hn : 0 <= n) by (unfold n; lia).
  assert (Hnarrow : Forall narrow rows).
  { rewrite Forall_forall in H1. rewrite Forall_forall in H2.
    apply Forall_forall. intros r Hin.
    specialize (H1 r Hin). specialize (H2 r Hin).
    unfold narrow, in_int64. split; nia. }
  assert (Hsum : in_int64 (riemann_sum rows)) by (unfold in_int64; nia).
  exists (inject_Z (riemann_sum rows) / inject_Z (end_int self - start_int self))%Q.
  split.
  - rewrite (average_long _ rows Hwf Hlen Hp Hnarrow Hsum), Es, Ee. reflexivity.
  - apply Qdiv_bounds; [lia | nia].
Qed.

Lemma average_bounds_witness :
  reachable (bare 0 10)
  /\ Forall (ordered (bare 0 10)) two_intervals
  /\ representable (start_int (bare 0 10)) /\ representable (end_int (bare 0 10))
  /\ Z.of_nat (length two_intervals)
     * (end_int (bare 0 10) - start_int (bare 0 10)) < 2 ^ 63
  /\ exists q, average (count (bare 0 10) two_intervals) = Some (Ok (Number q))
       /\ (0 <= q)%Q /\ (q <= inject_Z (Z.of_nat (length two_intervals)))%Q.
Proof.
  assert (Hs : representable (start_int (bare 0 10)))
    by (split; intros H; discriminate H).
  assert (He : representable (end_int (bare 0 10)))
    by (split; intros H; discriminate H).
  assert (Hfit : Z.of_nat (length two_intervals)
                 * (end_int (bare 0 10) - start_int (bare 0 10)) < 2 ^ 63)
    by reflexivity.
  split; [apply bare_reachable|]. split; [exact two_intervals_ordered|].
  split; [exact Hs|]. split; [exact He|]. split; [exact Hfit|].
  apply (average_bounds (bare 0 10) two_intervals (bare_reachable 0 10)
           two_intervals_ordered Hs He Hfit).
Defined.

(** X13.  [_reset] puts a reachable instance back into the state
    [__init__] builds from the same arguments. *)
Theorem reset_is_fresh (self : Timeline) :
  reachable self ->
  __init__ (Some (start self)) (Some (end_ self)) (local self) (debug self)
  = Ok (_reset self).
Proof.
  intros Hr. apply reachable_wf in Hr.
  unfold __init__, _reset, set_timeline. cbn.
  rewrite <- (wf_start _ Hr), <- (wf_end _ Hr). reflexivity.
Qed.

Lemma reset_is_fresh_witness :
  reachable (count (bare 0 10) two_intervals)
  /\ __init__ (Some (Unix 0)) (Some (Unix 10)) false false
     = Ok (_reset (count (bare 0 10) two_intervals)).
Proof.
  split; [apply reach_count, bare_reachable|].
  apply (reset_is_fresh (count (bare 0 10) two_intervals)
           (reach_count _ _ (bare_reachable 0 10))).
Defined.

(** ** Loading in batches, degenerate windows *)

Lemma adds_app (self : Timeline) (ops1 ops2 : list (timevalue * Z)) :
  adds self (ops1 ++ ops2) = adds (adds self ops1) ops2.
Proof. unfold adds. apply fold_left_app. Qed.

(** X17.  Loading a table in one [count] is the same as loading its first
    part with [count] and then calling [add] twice per remaining row. *)
Theorem count_app (self : Timeline) (data1 data2 : DataFrame) :
  count self (data1 ++ data2)
  = adds (count self data1) (flat_map (row_ops self) data2).
Proof.
  rewrite !count_adds. unfold DataFrame in *.
  rewrite flat_map_app. apply adds_app.
Qed.






(** X20.  On an inverted window ([start_int > end_int]) every [add] is
    filed under [end_int]: at most one instant is stored, the partition is
    empty and [average()] is 0. *)
Theorem inverted_window_degenerate (self : Timeline) :
  reachable self ->
  end_int self < start_int self ->
  (forall time, add_instant self time = end_int self)
  /\ Forall (fun k => k = end_int self) (instants self)
  /\ (length (timeline self) <= 1)%nat
  /\ partition self = Ok []
  /\ average self = Some (Ok (Number 0)).
Proof.
  intros Hr Hinv. apply reachable_wf in Hr.
  assert (Hlen : (length (timeline self) <= 1)%nat).
  { destruct (le_lt_dec (length (timeline self)) 1) as [H|H]; [exact H|].
    pose proof (wf_two_instants self Hr H). lia. }
  split; [intros [| |ts]; simpl; lia|].
  split; [|split; [exact Hlen|split; [|apply average_short, Hlen]]].
  - unfold instants. apply Forall_fmap.
    eapply Forall_impl; [apply (wf_keys _ Hr)|]. intros x [H1 H2]. simpl. lia.
  - apply partition_short, Hlen.
Qed.

Lemma inverted_window_degenerate_witness :
  reachable (count (bare 10 0) two_intervals)
  /\ end_int (count (bare 10 0) two_intervals)
     < start_int (count (bare 10 0) two_intervals)
  /\ partition (count (bare 10 0) two_intervals) = Ok []
  /\ average (count (bare 10 0) two_intervals) = Some (Ok (Number 0)).
Proof.
  assert (Hinv : end_int (count (bare 10 0) two_intervals)
                 < start_int (count (bare 10 0) two_intervals)) by reflexivity.
  split; [apply reach_count, bare_reachable|]. split; [exact Hinv|].
  apply (inverted_window_degenerate (count (bare 10 0) two_intervals)
           (reach_count _ _ (bare_reachable 10 0)) Hinv).
Defined.

Lemma upsert_all_same_instant (self : Timeline) (t v : Z)
  (ops : list (timevalue * Z)) :
  Forall (fun op => add_instant self (fst op) = t) ops ->
  upsert_all self ops [(t, v)] = [(t, v + sumZ (map snd ops))].
Proof.
  intros H. revert v. induction H as [|op ops Hop _ IH]; intros v.
  - unfold sumZ. simpl. do 2 f_equal. lia.
  - change (upsert_all self (op :: ops) [(t, v)])
      with (upsert_all self ops (upsert (add_instant self (fst op)) (snd op) [(t, v)])).
    rewrite Hop. cbn [upsert key fst snd]. rewrite Z.eqb_refl, IH.
    unfold sumZ. simpl. do 2 f_equal. lia.
Qed.

(** X21.  When every start and end of a non-empty table clamps to one
    instant (all records before the window, or all after it), [count]
    stores that instant alone with a zero delta: the partition is empty,
    [average()] is 0 and [norm()] raises. *)
Theorem count_single_instant (self : Timeline) (data : DataFrame) (t : Z) :
  data <> [] ->
  Forall (fun row => add_instant self (start_of self row) = t
                     /\ add_instant self (end_of self row) = t) data ->
  timeline (count self data) = [(t, 0)]
  /\ partition (count self data) = Ok []
  /\ average (count self data) = Some (Ok (Number 0))
  /\ norm (count self data) = Raise ValueError.
Proof.
  intros Hne Hall.
  assert (Hops : Forall (fun op => add_instant self (fst op) = t)
                   (flat_map (row_ops self) data)).
  { clear Hne. induction Hall as [|row d [Hs He] _ IH]; [constructor|].
    cbn [flat_map row_ops app]. constructor; [exact Hs|]. constructor; [exact He|].
    exact IH. }
  assert (Htl : timeline (count self data) = [(t, 0)]).
  { rewrite count_upsert_all. cbn [timeline set_timeline].
    destruct data as [|row d]; [congruence|].
    pose proof (sumZ_row_ops self (row :: d)) as Hsum.
    cbn [flat_map row_ops app] in Hops, Hsum |- *.
    inversion Hops as [|? ? H1 Hops']; subst.
    change (upsert_all self ((start_of self row, 1) :: ?o) [])
      with (upsert_all self o
              (upsert (add_instant self (start_of self row)) 1 [])).
    cbn [upsert]. rewrite upsert_all_same_instant by exact Hops'.
    unfold sumZ in *. cbn [map foldr snd] in Hsum |- *. f_equal. f_equal. lia. }
  assert (Hlen : (length (timeline (count self data)) <= 1)%nat)
    by (rewrite Htl; simpl; lia).
  assert (Hp : partition (count self data) = Ok [])
    by (apply partition_short, Hlen).
  split; [exact Htl|]. split; [exact Hp|]. split; [apply average_short, Hlen|].
  unfold norm, delta_x. rewrite Hp. reflexivity.
Qed.

Lemma count_single_instant_witness :
  [interval 12 15; interval 20 30] <> []
  /\ Forall (fun row => add_instant (bare 0 10) (start_of (bare 0 10) row) = 10
                        /\ add_instant (bare 0 10) (end_of (bare 0 10) row) = 10)
       [interval 12 15; interval 20 30]
  /\ timeline (count (bare 0 10) [interval 12 15; interval 20 30]) = [(10, 0)].
Proof.
  assert (Hne : [interval 12 15; interval 20 30] <> []).
  { intros H. discriminate H. }
  assert (Hall : Forall (fun row => add_instant (bare 0 10) (start_of (bare 0 10) row) = 10
                                    /\ add_instant (bare 0 10) (end_of (bare 0 10) row) = 10)
                   [interval 12 15; interval 20 30]).
  { repeat constructor. }
  split; [exact Hne|]. split; [exact Hall|].
  apply (count_single_instant (bare 0 10) _ 10 Hne Hall).
Defined.
